(** * Blockchain analytics chatbot: tool-call extraction and turn orchestration

    A shallow embedding of [blockchain_chatbot_mcp_v3.py]: the prompt
    builder, the tool-call extractor, the bounded orchestration loop of one
    user turn and the interactive chat loop, followed by the properties of
    these functions.

    Conventions of the embedding.
    - A Python [str] is a [string]; each character is read as the code point
      of the same number, so the texts of the model are the Python strings
      over the code points 0..255.  String values decoded from JSON may hold
      any code point (a [\uXXXX] escape) and are lists of code points.
    - Python integers are [Z].
    - An exception is a value of [exn]; a computation that may raise returns
      a [result].
    - [print] calls write to the console only and are left out.
    - Interpreter resource limits (recursion depth, integer digit limits) are
      not part of the model. *)

From Stdlib Require Import String Ascii List ZArith NArith Bool Lia PeanoNat.
Import ListNotations.

Set Warnings "-register-all".

Open Scope string_scope.

(** ** Exceptions and results *)

Inductive exn : Type :=
| JSONDecodeError
| IndexError
| KeyError (key : string)
| TypeError
| MCPToolError (msg : string)
| OtherException (msg : string).

Inductive result (A : Type) : Type :=
| Return (a : A)
| Raise (e : exn).

Arguments Return {A} a.
Arguments Raise {A} e.

(** [str(e)].  The program formats the exceptions that reach the handlers of
    [execute_mcp_tool] and [get_llm_response]: an [MCPToolError] and what a
    backend raised. *)
Definition exn_str (e : exn) : string :=
  match e with
  | JSONDecodeError => "JSONDecodeError"
  | IndexError => "IndexError"
  | KeyError key => "'" ++ key ++ "'"
  | TypeError => "TypeError"
  | MCPToolError msg => msg
  | OtherException msg => msg
  end.

(** ** Python string operations *)

Module PyStr.

Definition code (c : ascii) : N := N_of_ascii c.

Definition dquote : ascii := "034"%char.
Definition backslash : ascii := "\"%char.
Definition newline : ascii := "010"%char.

(** The double quote as a one-character text. *)
Definition Q : string := String dquote EmptyString.
(** The line feed as a one-character text. *)
Definition NL : string := String newline EmptyString.

(** [str.isspace] on one character (code points below 256). *)
Definition isspace (c : ascii) : bool :=
  let n := code c in
  (((9 <=? n) && (n <=? 13)) || ((28 <=? n) && (n <=? 32))
   || (n =? 133) || (n =? 160))%N.

Fixpoint lstrip (s : string) : string :=
  match s with
  | EmptyString => EmptyString
  | String c r => if isspace c then lstrip r else s
  end.

Fixpoint rstrip (s : string) : string :=
  match s with
  | EmptyString => EmptyString
  | String c r =>
      match rstrip r with
      | EmptyString => if isspace c then EmptyString else String c EmptyString
      | r' => String c r'
      end
  end.

(** [s.strip()] *)
Definition strip (s : string) : string := rstrip (lstrip s).

(** [s.startswith(p)] *)
Fixpoint startswith (s p : string) {struct p} : bool :=
  match p, s with
  | EmptyString, _ => true
  | String _ _, EmptyString => false
  | String a p', String b s' => Ascii.eqb a b && startswith s' p'
  end.

Fixpoint find_from (s sub : string) (i : Z) : Z :=
  if startswith s sub then i
  else match s with
       | EmptyString => (-1)%Z
       | String _ r => find_from r sub (i + 1)%Z
       end.

(** [s.find(sub)]: the lowest index where [sub] occurs, or -1. *)
Definition find (s sub : string) : Z := find_from s sub 0%Z.

(** [sub in s] *)
Fixpoint contains (sub s : string) : bool :=
  startswith s sub
  || match s with
     | EmptyString => false
     | String _ r => contains sub r
     end.

(** [len(s)] *)
Definition len (s : string) : Z := Z.of_nat (String.length s).

Fixpoint drop (n : nat) (s : string) : string :=
  match n, s with
  | O, _ => s
  | S _, EmptyString => EmptyString
  | S n', String _ r => drop n' r
  end.

Fixpoint take (n : nat) (s : string) : string :=
  match n, s with
  | O, _ => EmptyString
  | S _, EmptyString => EmptyString
  | S n', String c r => String c (take n' r)
  end.

(** A slice bound as Python normalises it: negative bounds count from the
    end, and the result is clamped to [0, len]. *)
Definition clamp (length : nat) (i : Z) : nat :=
  let l := Z.of_nat length in
  Z.to_nat (Z.min l (if (i <? 0)%Z then Z.max (l + i) 0 else i)).

(** [s[start:]] *)
Definition slice_from (s : string) (start : Z) : string :=
  drop (clamp (String.length s) start) s.

(** [s[:stop]] *)
Definition slice_to (s : string) (stop : Z) : string :=
  take (clamp (String.length s) stop) s.

(** [str.lower] on one character (code points below 256). *)
Definition lower_char (c : ascii) : ascii :=
  let n := code c in
  if (((65 <=? n) && (n <=? 90))
      || ((192 <=? n) && (n <=? 222) && negb (n =? 215)))%N
  then ascii_of_N (n + 32) else c.

Fixpoint lower (s : string) : string :=
  match s with
  | EmptyString => EmptyString
  | String c r => String (lower_char c) (lower r)
  end.

(** ["sep".join(parts)] *)
Fixpoint join (sep : string) (parts : list string) : string :=
  match parts with
  | [] => EmptyString
  | [p] => p
  | p :: rest => p ++ sep ++ join sep rest
  end.

(** The code points of a text. *)
Fixpoint codepoints (s : string) : list N :=
  match s with
  | EmptyString => []
  | String c r => code c :: codepoints r
  end.

End PyStr.

(** [l[start:]] on a list. *)
Definition list_slice_from {A : Type} (l : list A) (start : Z) : list A :=
  skipn (PyStr.clamp (List.length l) start) l.

(** ** JSON values and the decoder

    A model of the standard library's [json.loads] on text input, following
    the structure of [json.decoder] and [json.scanner]: [scanstring] for
    string literals, the number pattern, [scan_once] for a value with the
    object and array loops, and [decode] for the surrounding white space and
    the end-of-input check.  Floats keep their lexeme. *)

Module Json.
Import PyStr.

Inductive json : Type :=
| JNull
| JBool (b : bool)
| JInt (n : Z)
| JFloat (lexeme : string)
| JStr (s : list N)
| JList (items : list json)
| JDict (pairs : list (list N * json)).

Definition key_eqb (a b : list N) : bool :=
  if list_eq_dec N.eq_dec a b then true else false.

(** [d[k] = v] on an insertion-ordered dict: an existing key keeps its
    position and takes the new value. *)
Fixpoint dict_set (d : list (list N * json)) (k : list N) (v : json)
  : list (list N * json) :=
  match d with
  | [] => [(k, v)]
  | (k', v') :: rest =>
      if key_eqb k' k then (k', v) :: rest else (k', v') :: dict_set rest k v
  end.

(** [dict(pairs)] *)
Definition dict_of_pairs (pairs : list (list N * json)) : list (list N * json) :=
  fold_left (fun d kv => dict_set d (fst kv) (snd kv)) pairs [].

Fixpoint dict_get (d : list (list N * json)) (k : list N) : option json :=
  match d with
  | [] => None
  | (k', v) :: rest => if key_eqb k' k then Some v else dict_get rest k
  end.

(** The outcome of scanning a prefix of the input. *)
Inductive parsed (A : Type) : Type :=
| Parsed (a : A) (rest : string)
| Invalid
| OutOfFuel.

Arguments Parsed {A} a rest.
Arguments Invalid {A}.
Arguments OutOfFuel {A}.

(** White space of the JSON grammar: space, tab, line feed, carriage return. *)
Definition is_ws (c : ascii) : bool :=
  let n := code c in ((n =? 32) || (n =? 9) || (n =? 10) || (n =? 13))%N.

Fixpoint skip_ws (s : string) : string :=
  match s with
  | EmptyString => EmptyString
  | String c r => if is_ws c then skip_ws r else s
  end.

Definition is_digit (c : ascii) : bool :=
  let n := code c in ((48 <=? n) && (n <=? 57))%N.

Definition hexval (c : ascii) : option N :=
  let n := code c in
  if ((48 <=? n) && (n <=? 57))%N then Some (n - 48)%N
  else if ((65 <=? n) && (n <=? 70))%N then Some (n - 55)%N
  else if ((97 <=? n) && (n <=? 102))%N then Some (n - 87)%N
  else None.

Definition hex4 (a b c d : ascii) : option N :=
  match hexval a, hexval b, hexval c, hexval d with
  | Some x, Some y, Some z, Some w => Some (((x * 16 + y) * 16 + z) * 16 + w)%N
  | _, _, _, _ => None
  end.

Definition is_high_surrogate (u : N) : bool := ((55296 <=? u) && (u <=? 56319))%N.
Definition is_low_surrogate (u : N) : bool := ((56320 <=? u) && (u <=? 57343))%N.
Definition join_surrogates (hi lo : N) : N :=
  (65536 + ((hi - 55296) * 1024 + (lo - 56320)))%N.

(** The one-character escapes after a backslash. *)
Definition simple_escape (c : ascii) : option N :=
  if Ascii.eqb c dquote then Some 34%N
  else if Ascii.eqb c backslash then Some 92%N
  else if Ascii.eqb c "/" then Some 47%N
  else if Ascii.eqb c "b" then Some 8%N
  else if Ascii.eqb c "f" then Some 12%N
  else if Ascii.eqb c "n" then Some 10%N
  else if Ascii.eqb c "r" then Some 13%N
  else if Ascii.eqb c "t" then Some 9%N
  else None.

(** [scanstring] in strict mode; [s] starts right after the opening quote,
    [acc] holds the decoded code points in reverse. *)
Fixpoint scanstring (s : string) (acc : list N) : parsed (list N) :=
  match s with
  | EmptyString => Invalid
  | String c r =>
      if Ascii.eqb c dquote then Parsed (rev acc) r
      else if Ascii.eqb c backslash then
        match r with
        | EmptyString => Invalid
        | String e r1 =>
            if Ascii.eqb e "u" then
              match r1 with
              | String h1 (String h2 (String h3 (String h4 r2))) =>
                  match hex4 h1 h2 h3 h4 with
                  | None => Invalid
                  | Some uni =>
                      if is_high_surrogate uni then
                        match r2 with
                        | String b (String u (String g1 (String g2 (String g3 (String g4 r3))))) =>
                            if Ascii.eqb b backslash && Ascii.eqb u "u" then
                              match hex4 g1 g2 g3 g4 with
                              | None => Invalid
                              | Some uni2 =>
                                  if is_low_surrogate uni2
                                  then scanstring r3 (join_surrogates uni uni2 :: acc)
                                  else scanstring r2 (uni :: acc)
                              end
                            else scanstring r2 (uni :: acc)
                        | _ => scanstring r2 (uni :: acc)
                        end
                      else scanstring r2 (uni :: acc)
                  end
              | _ => Invalid
              end
            else
              match simple_escape e with
              | Some n => scanstring r1 (n :: acc)
              | None => Invalid
              end
        end
      else if (code c <? 32)%N then Invalid
      else scanstring r (code c :: acc)
  end.

(** The longest run of decimal digits at the start of [s], and what follows. *)
Fixpoint span_digits (s : string) : string * string :=
  match s with
  | EmptyString => (EmptyString, EmptyString)
  | String c r =>
      if is_digit c then let (d, t) := span_digits r in (String c d, t)
      else (EmptyString, s)
  end.

(** The integer group of the number pattern: an optional minus sign, then
    either a single zero or a nonzero digit followed by digits. *)
Definition match_integer (s : string) : option (string * string) :=
  let (sign, s1) :=
    match s with
    | String c r => if Ascii.eqb c "-" then ("-", r) else (EmptyString, s)
    | EmptyString => (EmptyString, s)
    end in
  match s1 with
  | String c r =>
      if Ascii.eqb c "0" then Some (sign ++ "0", r)
      else if is_digit c then let (d, t) := span_digits s1 in Some (sign ++ d, t)
      else None
  | EmptyString => None
  end.

(** The optional fraction group: a dot and at least one digit. *)
Definition match_frac (s : string) : string * string :=
  match s with
  | String c r =>
      if Ascii.eqb c "." then
        match span_digits r with
        | (EmptyString, _) => (EmptyString, s)
        | (d, t) => (String c d, t)
        end
      else (EmptyString, s)
  | EmptyString => (EmptyString, s)
  end.

(** The optional exponent group: e or E, an optional sign, at least one digit. *)
Definition match_exp (s : string) : string * string :=
  match s with
  | String c r =>
      if Ascii.eqb c "e" || Ascii.eqb c "E" then
        let (sign, r1) :=
          match r with
          | String g r' =>
              if Ascii.eqb g "-" || Ascii.eqb g "+"
              then (String g EmptyString, r') else (EmptyString, r)
          | EmptyString => (EmptyString, r)
          end in
        match span_digits r1 with
        | (EmptyString, _) => (EmptyString, s)
        | (d, t) => (String c (sign ++ d), t)
        end
      else (EmptyString, s)
  | EmptyString => (EmptyString, s)
  end.

Fixpoint digits_value (s : string) (acc : Z) : Z :=
  match s with
  | EmptyString => acc
  | String c r => digits_value r (10 * acc + Z.of_N (code c - 48))%Z
  end.

(** [int(lexeme)] for a lexeme of the integer group. *)
Definition int_of_lexeme (s : string) : Z :=
  match s with
  | String c r => if Ascii.eqb c "-" then (- digits_value r 0)%Z else digits_value s 0
  | EmptyString => 0%Z
  end.

(** The number pattern at the start of [s]. *)
Definition match_number (s : string) : option (json * string) :=
  match match_integer s with
  | None => None
  | Some (integer, s1) =>
      let (frac, s2) := match_frac s1 in
      let (exp, s3) := match_exp s2 in
      match frac, exp with
      | EmptyString, EmptyString => Some (JInt (int_of_lexeme integer), s3)
      | _, _ => Some (JFloat (integer ++ frac ++ exp), s3)
      end
  end.

(** The literals and numbers of [scan_once]; [s] is not empty and does not
    start a string, an object or an array. *)
Definition scan_atom (s : string) : parsed json :=
  if startswith s "null" then Parsed JNull (drop 4 s)
  else if startswith s "true" then Parsed (JBool true) (drop 4 s)
  else if startswith s "false" then Parsed (JBool false) (drop 5 s)
  else match match_number s with
       | Some (v, r) => Parsed v r
       | None =>
           if startswith s "NaN" then Parsed (JFloat "NaN") (drop 3 s)
           else if startswith s "Infinity" then Parsed (JFloat "Infinity") (drop 8 s)
           else if startswith s "-Infinity" then Parsed (JFloat "-Infinity") (drop 9 s)
           else Invalid
       end.

(** [scan_once]: one JSON value at the start of [s].  [object_pairs] is the
    loop of [JSONObject], entered right after the opening quote of a key;
    [array_values] is the loop of [JSONArray], entered at the start of an
    element.  Every call spends one unit of [fuel]. *)
Fixpoint scan_once (fuel : nat) (s : string) : parsed json :=
  match fuel with
  | O => OutOfFuel
  | S fuel' =>
      match s with
      | EmptyString => Invalid
      | String c r =>
          if Ascii.eqb c dquote then
            match scanstring r [] with
            | Parsed k r' => Parsed (JStr k) r'
            | Invalid => Invalid
            | OutOfFuel => OutOfFuel
            end
          else if Ascii.eqb c "{" then
            match skip_ws r with
            | EmptyString => Invalid
            | String c1 r1 =>
                if Ascii.eqb c1 "}" then Parsed (JDict []) r1
                else if Ascii.eqb c1 dquote then object_pairs fuel' r1 []
                else Invalid
            end
          else if Ascii.eqb c "[" then
            match skip_ws r with
            | EmptyString => Invalid
            | String c1 r1 =>
                if Ascii.eqb c1 "]" then Parsed (JList []) r1
                else array_values fuel' (String c1 r1) []
            end
          else scan_atom s
      end
  end

with object_pairs (fuel : nat) (s : string) (pairs : list (list N * json))
  : parsed json :=
  match fuel with
  | O => OutOfFuel
  | S fuel' =>
      match scanstring s [] with
      | Parsed key r =>
          match skip_ws r with
          | EmptyString => Invalid
          | String c1 r1 =>
              if Ascii.eqb c1 ":" then
                match scan_once fuel' (skip_ws r1) with
                | Parsed value r2 =>
                    let pairs' := (pairs ++ [(key, value)])%list in
                    match skip_ws r2 with
                    | EmptyString => Invalid
                    | String c3 r3 =>
                        if Ascii.eqb c3 "}" then Parsed (JDict (dict_of_pairs pairs')) r3
                        else if Ascii.eqb c3 "," then
                          match skip_ws r3 with
                          | EmptyString => Invalid
                          | String c4 r4 =>
                              if Ascii.eqb c4 dquote then object_pairs fuel' r4 pairs'
                              else Invalid
                          end
                        else Invalid
                    end
                | Invalid => Invalid
                | OutOfFuel => OutOfFuel
                end
              else Invalid
          end
      | Invalid => Invalid
      | OutOfFuel => OutOfFuel
      end
  end

with array_values (fuel : nat) (s : string) (values : list json) : parsed json :=
  match fuel with
  | O => OutOfFuel
  | S fuel' =>
      match scan_once fuel' s with
      | Parsed value r =>
          let values' := (values ++ [value])%list in
          match skip_ws r with
          | EmptyString => Invalid
          | String c1 r1 =>
              if Ascii.eqb c1 "]" then Parsed (JList values') r1
              else if Ascii.eqb c1 "," then array_values fuel' (skip_ws r1) values'
              else Invalid
          end
      | Invalid => Invalid
      | OutOfFuel => OutOfFuel
      end
  end.

(** The fuel that [decode] gives the scanner: enough for every input. *)
Definition fuel_for (s : string) : nat := 2 * String.length s + 1.

(** [JSONDecoder.decode]: white space, one value, white space, end of input. *)
Definition decode (s : string) : parsed json :=
  match scan_once (fuel_for s) (skip_ws s) with
  | Parsed v r =>
      match skip_ws r with
      | EmptyString => Parsed v EmptyString
      | String _ _ => Invalid
      end
  | Invalid => Invalid
  | OutOfFuel => OutOfFuel
  end.

(** [json.loads(s)]: the decoded value, or [JSONDecodeError]. *)
Definition loads (s : string) : result json :=
  match decode s with
  | Parsed v _ => Return v
  | Invalid => Raise JSONDecodeError
  | OutOfFuel => Raise JSONDecodeError
  end.

End Json.

(** ** The chatbot *)

Module Chatbot.
Import PyStr Json.

(** A JSON string value given by its text. *)
Definition JText (s : string) : json := JStr (codepoints s).

(** *** Prompt builder *)

(** [DatabaseSchema.get_schema_context] *)
Definition get_schema_context : string :=
  "
        ETHEREUM BLOCKCHAIN DATABASE SCHEMA (goteth_mainnet)
        
        You are analyzing Ethereum Proof-of-Stake consensus layer data. Key tables:
        
        1. t_validator_last_status (1.98M rows) - Current validator status
           - f_val_idx: Validator index (unique identifier)
           - f_epoch: Current epoch number
           - f_balance_eth: Validator balance in ETH
           - f_effective_balance: Effective balance for consensus (in wei)
           - f_status: Status code (1=active, 0=inactive)
           - f_slashed: Boolean indicating if validator was slashed
           
        2. t_block_metrics (11.96M rows) - Block production data
           - f_slot: Slot number (12-second intervals)
           - f_epoch: Epoch number (32 slots = 1 epoch)
           - f_proposer_index: Validator who proposed the block
           - f_proposed: Boolean indicating if block was actually proposed
           - f_attestations: Number of attestations in block
           
        3. t_pool_summary (65.6M rows) - Staking pool performance
           - f_pool_name: Name of staking pool
           - f_epoch: Epoch number
           - aggregated_rewards: Total rewards for pool in epoch
           - aggregated_effective_balance: Total effective balance
           
        4. t_epoch_metrics_summary (375K rows) - Network-wide metrics
           - f_epoch: Epoch number
           - f_num_vals: Number of active validators
           - f_total_balance_eth: Total ETH staked
           - f_num_att: Number of attestations
           
        5. t_block_rewards (7.6M rows) - Economic data
           - f_slot: Slot number
           - f_reward_fees: Transaction fees earned
           - f_burnt_fees: EIP-1559 burnt fees
           - f_cl_manual_reward: Consensus layer rewards
           
        QUERY GUIDELINES:
        - Always use LIMIT clauses (max 100 rows for display)
        - Use aggregate functions (COUNT, SUM, AVG) for large datasets
        - Field names are prefixed with f_ (e.g., f_val_idx, f_epoch)
        - Epochs are ~6.4 minutes, slots are 12 seconds
        - Current epoch is around 375000+
        - Balance fields may be in wei (divide by 1e18 for ETH) or ETH
        ".

(** One entry of [self.available_tools], as [_discover_tools] builds it. *)
Record tool : Type := {
  name : string;
  description : string;
  input_schema : json
}.

(** The line of one tool in the prompt. *)
Definition tool_line (t : tool) : string :=
  "- " ++ name t ++ ": " ++ description t.

(** [_create_system_prompt], with [self.available_tools] as its argument. *)
Definition _create_system_prompt (available_tools : list tool) : string :=
  let tools_description := join NL (map tool_line available_tools) in
  "You are a blockchain analytics assistant with access to Ethereum consensus layer data.

"
  ++ get_schema_context
  ++ "

AVAILABLE MCP TOOLS:
"
  ++ tools_description
  ++ "

        INSTRUCTIONS:
1. When users ask questions about blockchain data, analyze what information you need
2. Use the appropriate MCP tools to query the database
3. For SQL queries, generate ClickHouse-compatible SQL with proper LIMIT clauses
4. Always explain your findings in clear, user-friendly language
5. If you need to make multiple queries, do them step by step

TOOL USAGE FORMAT:
When you need to use a tool, respond with:
TOOL_CALL: {
    " ++ Q ++ "tool_name" ++ Q ++ ": " ++ Q ++ "tool_name_here" ++ Q ++ ",
    " ++ Q ++ "arguments" ++ Q ++ ": {" ++ Q ++ "arg1" ++ Q ++ ": " ++ Q ++ "value1" ++ Q ++ ", " ++ Q ++ "arg2" ++ Q ++ ": " ++ Q ++ "value2" ++ Q ++ "}
}

IMPORTANT TOOL SIGNATURES:
- list_databases(): No parameters needed
- list_tables(database): Requires database name (e.g., " ++ Q ++ "goteth_mainnet" ++ Q ++ ")
- run_select_query(query): Only requires SQL query string, database connection is already established

After receiving tool results, provide a comprehensive answer based on the data.
".

(** *** Tool-call extractor *)

Definition MARKER : string := "TOOL_CALL:".

(** The loop over [enumerate(tool_call_json)] that looks for the matching
    closing brace.  The result is the value of [end_index] when the loop is
    left: [i + 1] at the [break], and the initial 0 when the characters run
    out. *)
Fixpoint scan_braces (chars : string) (i brace_count : Z) : Z :=
  match chars with
  | EmptyString => 0
  | String char rest =>
      if Ascii.eqb char "{" then scan_braces rest (i + 1) (brace_count + 1)
      else if Ascii.eqb char "}" then
        let brace_count := brace_count - 1 in
        if brace_count =? 0 then i + 1
        else scan_braces rest (i + 1) brace_count
      else scan_braces rest (i + 1) brace_count
  end%Z.

(** The stripped text after the first marker. *)
Definition after_marker (llm_response : string) : string :=
  let tool_call_start := (find llm_response MARKER + len MARKER)%Z in
  strip (slice_from llm_response tool_call_start).

(** The body of the [try] block: [Return (Some v)] is [return json.loads(...)],
    [Return None] is falling out of the [if]. *)
Definition extract_body (llm_response : string) : result (option json) :=
  let tool_call_start := (find llm_response MARKER + len MARKER)%Z in
  let tool_call_json := strip (slice_from llm_response tool_call_start) in
  if startswith tool_call_json "{" then
    let end_index := scan_braces tool_call_json 0 0 in
    let tool_call_json := slice_to tool_call_json end_index in
    match loads tool_call_json with
    | Return v => Return (Some v)
    | Raise e => Raise e
    end
  else Return None.

(** [_extract_tool_call]: the handler catches [JSONDecodeError] and
    [IndexError]; any other exception leaves the function. *)
Definition _extract_tool_call (llm_response : string) : result (option json) :=
  if negb (contains MARKER llm_response) then Return None
  else
    match extract_body llm_response with
    | Raise JSONDecodeError => Return None
    | Raise IndexError => Return None
    | r => r
    end.

(** The text that [_extract_tool_call] hands to [json.loads], when it gets
    that far. *)
Definition submitted_json (llm_response : string) : option string :=
  if negb (contains MARKER llm_response) then None
  else
    let tool_call_json := after_marker llm_response in
    if startswith tool_call_json "{"
    then Some (slice_to tool_call_json (scan_braces tool_call_json 0 0))
    else None.

(** *** Effects: state, exceptions and the two backends *)

(** A computation over a state [S] that returns or raises; the state
    survives a raise, as mutations made before a Python exception do. *)
Definition M (S A : Type) : Type := S -> result A * S.

Definition ret {S A : Type} (a : A) : M S A := fun st => (Return a, st).

Definition raise {S A : Type} (e : exn) : M S A := fun st => (Raise e, st).

Definition lift {S A : Type} (r : result A) : M S A := fun st => (r, st).

Definition bind {S A B : Type} (m : M S A) (k : A -> M S B) : M S B :=
  fun st =>
    match m st with
    | (Return a, st') => k a st'
    | (Raise e, st') => (Raise e, st')
    end.

(** [try: body except ...: handler]; a handler re-raises what its [except]
    clause does not name. *)
Definition try_except {S A : Type} (body : M S A) (handler : exn -> M S A)
  : M S A :=
  fun st =>
    match body st with
    | (Return a, st') => (Return a, st')
    | (Raise e, st') => handler e st'
    end.

Notation "x <- c1 ;; c2" := (bind c1 (fun x => c2))
  (at level 61, c1 at next level, right associativity).
Notation "c1 ;; c2" := (bind c1 (fun _ => c2))
  (at level 61, right associativity).

(** One entry of the transcript: [{"role": ..., "content": ...}]. *)
Record message : Type := {
  role : string;
  content : string
}.

Definition user (text : string) : message :=
  {| role := "user"; content := text |}.
Definition assistant (text : string) : message :=
  {| role := "assistant"; content := text |}.
Definition system (text : string) : message :=
  {| role := "system"; content := text |}.

(** What the completion backend does with one request. *)
Inductive completion : Type :=
| Completed (text : string)
| CompletionFailed (err : string).

(** The first item of a content list, by the attribute the code finds. *)
Inductive content_item : Type :=
| TextItem (text : string)
| DataItem (data : string)
| OtherItem (repr : string).

(** [result.content] as the code inspects it. *)
Inductive tool_content : Type :=
| Falsy
| Items (first : content_item) (others : list content_item)
| NotAList.

(** The object returned by [session.call_tool]; [content_str] is
    [str(result.content)]. *)
Record call_tool_result : Type := {
  isError : bool;
  result_content : tool_content;
  content_str : string
}.

(** What the tool backend does with one call. *)
Inductive tool_reply : Type :=
| ToolReturned (r : call_tool_result)
| ToolRaised (err : string).

Inductive tools_reply : Type :=
| ToolsListed (tools : list tool)
| ToolsFailed (err : string).

(** The collaborators: each operation reads and updates a world the program
    cannot see, so a backend may answer differently from call to call. *)
Record backend (World : Type) : Type := {
  chat_completions_create : list message -> World -> completion * World;
  session_call_tool : json -> json -> World -> tool_reply * World;
  session_initialize : World -> option string * World;
  session_list_tools : World -> tools_reply * World
}.

Arguments chat_completions_create {World} b _ _.
Arguments session_call_tool {World} b _ _ _.
Arguments session_initialize {World} b _.
Arguments session_list_tools {World} b _.

(** A request sent to a backend. *)
Inductive request : Type :=
| LLMRequest (messages : list message)
| ToolRequest (tool_name arguments : json).

Definition is_llm_request (r : request) : bool :=
  match r with LLMRequest _ => true | ToolRequest _ _ => false end.
Definition is_tool_request (r : request) : bool :=
  match r with LLMRequest _ => false | ToolRequest _ _ => true end.

Definition llm_calls (rs : list request) : nat :=
  List.length (filter is_llm_request rs).
Definition tool_calls (rs : list request) : nat :=
  List.length (filter is_tool_request rs).

Section Orchestrator.

Context {World : Type} (B : backend World).

(** The program state: the world behind the backends, [self.available_tools]
    and the list object [conversation_history].  Two components are
    observations only and are read by no function of the program: [requests]
    lists the backend requests issued so far, [appended] lists every entry
    ever appended to the transcript (truncation does not touch it). *)
Record state : Type := {
  world : World;
  available_tools : list tool;
  conversation_history : list message;
  requests : list request;
  appended : list message
}.

Definition set_world (w : World) (st : state) : state :=
  {| world := w; available_tools := available_tools st;
     conversation_history := conversation_history st;
     requests := requests st; appended := appended st |}.

Definition log_request (r : request) (st : state) : state :=
  {| world := world st; available_tools := available_tools st;
     conversation_history := conversation_history st;
     requests := requests st ++ [r]; appended := appended st |}.

Definition set_tools (tools : list tool) : M state unit :=
  fun st =>
    (Return tt,
     {| world := world st; available_tools := tools;
        conversation_history := conversation_history st;
        requests := requests st; appended := appended st |}).

(** [conversation_history = h]: the variable is bound to another list. *)
Definition set_history (h : list message) : M state unit :=
  fun st =>
    (Return tt,
     {| world := world st; available_tools := available_tools st;
        conversation_history := h;
        requests := requests st; appended := appended st |}).

(** [conversation_history = []]: a new, empty transcript. *)
Definition new_history : M state unit :=
  fun st =>
    (Return tt,
     {| world := world st; available_tools := available_tools st;
        conversation_history := [];
        requests := requests st; appended := [] |}).

(** [conversation_history.extend(entries)] *)
Definition history_extend (entries : list message) : M state unit :=
  fun st =>
    (Return tt,
     {| world := world st; available_tools := available_tools st;
        conversation_history := conversation_history st ++ entries;
        requests := requests st; appended := appended st ++ entries |}).

Definition get_history : M state (list message) :=
  fun st => (Return (conversation_history st), st).

Definition get_tools : M state (list tool) :=
  fun st => (Return (available_tools st), st).

(** [await self.groq_client.chat.completions.create(...)] followed by
    [response.choices[0].message.content]; the model name, temperature and
    token limit are the same in every request. *)
Definition groq_create (messages : list message) : M state string :=
  fun st =>
    let (reply, w) := chat_completions_create B messages (world st) in
    let st' := log_request (LLMRequest messages) (set_world w st) in
    match reply with
    | Completed text => (Return text, st')
    | CompletionFailed err => (Raise (OtherException err), st')
    end.

(** [await session.call_tool(tool_name, arguments)] *)
Definition call_tool (tool_name arguments : json) : M state call_tool_result :=
  fun st =>
    let (reply, w) := session_call_tool B tool_name arguments (world st) in
    let st' := log_request (ToolRequest tool_name arguments) (set_world w st) in
    match reply with
    | ToolReturned r => (Return r, st')
    | ToolRaised err => (Raise (OtherException err), st')
    end.

(** [await session.initialize()] *)
Definition initialize : M state unit :=
  fun st =>
    let (reply, w) := session_initialize B (world st) in
    match reply with
    | None => (Return tt, set_world w st)
    | Some err => (Raise (OtherException err), set_world w st)
    end.

(** [await session.list_tools()], with the tools already in the shape
    [_discover_tools] gives them. *)
Definition list_tools : M state (list tool) :=
  fun st =>
    let (reply, w) := session_list_tools B (world st) in
    match reply with
    | ToolsListed tools => (Return tools, set_world w st)
    | ToolsFailed err => (Raise (OtherException err), set_world w st)
    end.

(** *** The methods of [BlockchainChatbotMCPv3] *)

Definition _discover_tools : M state unit :=
  try_except
    (tools <- list_tools;; set_tools tools)
    (fun _ => set_tools []).

Definition initialize_session : M state unit :=
  initialize;; _discover_tools.

Definition execute_mcp_tool (tool_name arguments : json) : M state string :=
  try_except
    (result <- call_tool tool_name arguments;;
     if isError result
     then raise (MCPToolError ("Tool execution failed: " ++ content_str result))
     else
       match result_content result with
       | Items content_item _ =>
           match content_item with
           | TextItem text => ret text
           | DataItem data => ret data
           | OtherItem repr => ret repr
           end
       | NotAList => ret (content_str result)
       | Falsy => ret "Tool executed successfully but returned no content"
       end)
    (fun e =>
       let error_msg := "MCP tool execution failed: " ++ exn_str e in
       raise (MCPToolError error_msg)).

Definition get_llm_response (user_message : string) : M state string :=
  tools <- get_tools;;
  conversation_history <- get_history;;
  let messages :=
    ([system (_create_system_prompt tools)]
       ++ conversation_history
       ++ [user user_message])%list in
  try_except
    (groq_create messages)
    (fun e => ret ("Error getting LLM response: " ++ exn_str e)).

(** [tool_call[key]] *)
Definition getitem (v : json) (key : string) : result json :=
  match v with
  | JDict d =>
      match dict_get d (codepoints key) with
      | Some x => Return x
      | None => Raise (KeyError key)
      end
  | _ => Raise TypeError
  end.

(** How one pass through the body of the [for] loop ends. *)
Inductive step : Type :=
| Continue (current_message : string)
| Finish (answer : string).

Definition FOLLOW_UP : string :=
  "Please provide a comprehensive answer based on the tool results above.".

Definition EXHAUSTED : string :=
  "I'm having trouble completing this request after multiple attempts.".

(** The body of [for iteration in range(max_iterations)]. *)
Definition turn_iteration (current_message : string) : M state step :=
  llm_response <- get_llm_response current_message;;
  tool_call <- lift (_extract_tool_call llm_response);;
  match tool_call with
  | None => ret (Finish llm_response)
  | Some tool_call =>
      try_except
        (tool_name <- lift (getitem tool_call "tool_name");;
         arguments <- lift (getitem tool_call "arguments");;
         tool_result <- execute_mcp_tool tool_name arguments;;
         history_extend [assistant llm_response;
                         user ("Tool result: " ++ tool_result)];;
         ret (Continue FOLLOW_UP))
        (fun e =>
           match e with
           | MCPToolError msg =>
               ret (Finish ("I encountered an error while querying the database: "
                              ++ msg))
           | _ => raise e
           end)
  end.

(** The [for] loop with [iterations] passes left, and the [return] after it. *)
Fixpoint turn_loop (iterations : nat) (current_message : string)
  : M state string :=
  match iterations with
  | O => ret EXHAUSTED
  | S remaining =>
      s <- turn_iteration current_message;;
      match s with
      | Finish answer => ret answer
      | Continue next_message => turn_loop remaining next_message
      end
  end.

Definition max_iterations : nat := 3.

Definition process_conversation_turn (user_message : string) : M state string :=
  turn_loop max_iterations user_message.

(** How the chat loop stops on a finite list of input lines. *)
Inductive loop_exit : Type :=
| Goodbye
| AwaitingInput.

Definition is_exit_keyword (s : string) : bool :=
  String.eqb s "quit" || String.eqb s "exit" || String.eqb s "bye".

(** The part of the loop body after the guards: one completed user turn. *)
Definition chat_turn (user_input : string) : M state unit :=
  response <- process_conversation_turn user_input;;
  history_extend [user user_input; assistant response];;
  conversation_history <- get_history;;
  if (20 <? Z.of_nat (List.length conversation_history))%Z
  then set_history (list_slice_from conversation_history (-20))
  else ret tt.

(** The [while True] loop, fed with the lines that [input] returns. *)
Fixpoint chat_turns (lines : list string) : M state loop_exit :=
  match lines with
  | [] => ret AwaitingInput
  | line :: rest =>
      let user_input := strip line in
      if is_exit_keyword (lower user_input) then ret Goodbye
      else if String.eqb user_input EmptyString then chat_turns rest
      else chat_turn user_input;; chat_turns rest
  end.

(** [chat_loop], from the point where the transport is open. *)
Definition chat_loop (lines : list string) : M state loop_exit :=
  initialize_session;;
  new_history;;
  chat_turns lines.

(** The state in which a chatbot object starts: no tools, nothing sent. *)
Definition initial_state (w : World) : state :=
  {| world := w; available_tools := []; conversation_history := [];
     requests := []; appended := [] |}.

End Orchestrator.

Arguments state World : clear implicits.

End Chatbot.

Import PyStr Json Chatbot.

(** * Simulated collaborators and sample texts *)

(** A scripted pair of backends: the world holds the replies still to be
    given, and each call takes the next one.  A channel whose script is used
    up fails. *)
Definition script : Type := (list completion * list tool_reply)%type.

Definition scripted : backend script := {|
  chat_completions_create := fun _ w =>
    match fst w with
    | [] => (CompletionFailed "connection closed", w)
    | c :: cs => (c, (cs, snd w))
    end;
  session_call_tool := fun _ _ w =>
    match snd w with
    | [] => (ToolRaised "connection closed", w)
    | r :: rs => (r, (fst w, rs))
    end;
  session_initialize := fun w => (None, w);
  session_list_tools := fun w => (ToolsListed [], w)
|}.

(** Backends that give the same reply to every request. *)
Definition constant (c : completion) (t : tool_reply) : backend unit := {|
  chat_completions_create := fun _ w => (c, w);
  session_call_tool := fun _ _ w => (t, w);
  session_initialize := fun w => (None, w);
  session_list_tools := fun w => (ToolsListed [], w)
|}.

(** A successful tool result with one text item. *)
Definition text_result (text : string) : tool_reply :=
  ToolReturned {| isError := false;
                  result_content := Items (TextItem text) [];
                  content_str := "[TextContent]" |}.

(** A tool result that reports an error. *)
Definition error_result (text : string) : tool_reply :=
  ToolReturned {| isError := true;
                  result_content := Items (TextItem text) [];
                  content_str := text |}.

(** [TOOL_CALL: {"tool_name": "list_databases", "arguments": {}}] *)
Definition list_databases_call : string :=
  "TOOL_CALL: {" ++ Q ++ "tool_name" ++ Q ++ ": " ++ Q ++ "list_databases" ++ Q
  ++ ", " ++ Q ++ "arguments" ++ Q ++ ": {}}".

(** [TOOL_CALL: {"tool_name": "x", "arguments": {}], the final brace missing. *)
Definition missing_brace_call : string :=
  "TOOL_CALL: {" ++ Q ++ "tool_name" ++ Q ++ ": " ++ Q ++ "x" ++ Q
  ++ ", " ++ Q ++ "arguments" ++ Q ++ ": {}".

(** The object
    [{"tool_name": "run_select_query", "arguments": {"query": "SELECT '}'"}}]:
    the SQL text holds a closing brace. *)
Definition brace_query_object : string :=
  "{" ++ Q ++ "tool_name" ++ Q ++ ": " ++ Q ++ "run_select_query" ++ Q
  ++ ", " ++ Q ++ "arguments" ++ Q ++ ": {" ++ Q ++ "query" ++ Q ++ ": "
  ++ Q ++ "SELECT '}'" ++ Q ++ "}}".

Definition brace_query_value : json :=
  JDict [(codepoints "tool_name", JText "run_select_query");
         (codepoints "arguments",
          JDict [(codepoints "query", JText "SELECT '}'")])].

(** The object [{"tool_name": "run_select_query", "arguments": {"query":
    "SELECT '}}{{'"}}]: as many opening as closing braces in all, two of
    each inside the SQL text. *)
Definition brace_pair_object : string :=
  "{" ++ Q ++ "tool_name" ++ Q ++ ": " ++ Q ++ "run_select_query" ++ Q
  ++ ", " ++ Q ++ "arguments" ++ Q ++ ": {" ++ Q ++ "query" ++ Q ++ ": "
  ++ Q ++ "SELECT '}}{{'" ++ Q ++ "}}".


(** The number of opening braces minus the number of closing braces. *)
Fixpoint brace_depth (s : string) : Z :=
  match s with
  | EmptyString => 0
  | String c r =>
      (if Ascii.eqb c "{" then 1 else if Ascii.eqb c "}" then -1 else 0)
      + brace_depth r
  end%Z.

(** The depth counter never returns to zero: no prefix but the empty one is
    balanced. *)
Definition never_balanced (s : string) : Prop :=
  forall n : nat, (0 < n <= String.length s)%nat -> brace_depth (take n s) <> 0%Z.


(** Transcript entries that are tool exchanges: the assistant's tool-call
    text followed by the synthetic user message with the result. *)
Inductive exchanges : list message -> Prop :=
| exchanges_nil : exchanges []
| exchanges_cons : forall llm_response tool_result rest,
    exchanges rest ->
    exchanges (assistant llm_response
                 :: user ("Tool result: " ++ tool_result) :: rest).


(** The transcript sent with a request for [user_message]. *)
Definition request_messages {World : Type} (st : state World)
  (user_message : string)
  : list message :=
  [system (_create_system_prompt (available_tools st))]
    ++ conversation_history st ++ [user user_message].

(** [st'] differs from [st] in the world and in one more logged request. *)
Definition after_request {World : Type} (st : state World) (r : request)
  (st' : state World)
  : Prop :=
  exists w, st' = log_request r (set_world w st).

(** [conversation_history.extend(entries)] as a state transformer. *)
Definition extended {World : Type} (entries : list message) (st : state World)
  : state World :=
  snd (history_extend entries st).

(** The sliding window: [l[-20:]]. *)
Definition window (l : list message) : list message := list_slice_from l (-20).

(** With fuel above twice the length of the input the scanner does not run
    out, and what it leaves is shorter than what it was given. *)
Definition scans_within_fuel (fuel : nat) : Prop :=
  (forall s, 2 * String.length s < fuel ->
     scan_once fuel s <> OutOfFuel
     /\ forall v r, scan_once fuel s = Parsed v r ->
                    String.length r < String.length s)
  /\ (forall s pairs, 2 * String.length s < fuel ->
        object_pairs fuel s pairs <> OutOfFuel
        /\ forall v r, object_pairs fuel s pairs = Parsed v r ->
                       String.length r < String.length s)
  /\ (forall s values, 2 * String.length s + 1 < fuel ->
        array_values fuel s values <> OutOfFuel
        /\ forall v r, array_values fuel s values = Parsed v r ->
                       String.length r < String.length s).

(** A text of which the braces balance at its last character and nowhere
    before. *)
Definition balanced_at_end (s : string) : Prop :=
  (forall n, 0 < n < String.length s -> brace_depth (take n s) <> 0%Z)
  /\ brace_depth s = 0%Z.

(** Case analysis on the first [match] of a hypothesis or of the goal. *)
Ltac break_match_in H :=
  match type of H with
  | context [match ?x with _ => _ end] => destruct x eqn:?
  end.

Ltac break_match_goal :=
  match goal with
  | |- context [match ?x with _ => _ end] => destruct x eqn:?
  end.

(** * The smoke tests

    [test_basic_functionality] of the chatbot module and
    [test_full_integration] of [test_chatbot_integration.py], from the point
    where the transport is open.  Both wrap everything in
    [try ... except Exception]. *)

Section SmokeTests.

Context {World : Type} (B : backend World).




(** [test_full_integration]; [groq_api_key] is what [os.getenv] returns.
    Each [[]] passed as the conversation history is a new empty list. *)
Definition test_full_integration (groq_api_key : option string)
  : M (state World) bool :=
  match groq_api_key with
  | None => ret false
  | Some EmptyString => ret false
  | Some (String _ _) =>
      try_except
        (initialize_session B;;
         result <- execute_mcp_tool B (JText "list_databases") (JDict []);;
         new_history;;
         llm_response <-
           get_llm_response B "Hello, can you help me understand blockchain data?";;
         new_history;;
         response <-
           process_conversation_turn B "How many databases are available?";;
         ret true)
        (fun _ => ret false)
  end.

End SmokeTests.

(** Backends of which the session start fails, or the tool discovery. *)
Definition failing_start (err : string) : backend unit := {|
  chat_completions_create := fun _ w => (Completed "ok", w);
  session_call_tool := fun _ _ w => (text_result "default", w);
  session_initialize := fun w => (Some err, w);
  session_list_tools := fun w => (ToolsListed [], w)
|}.

Definition failing_discovery (err : string) : backend unit := {|
  chat_completions_create := fun _ w => (Completed "ok", w);
  session_call_tool := fun _ _ w => (text_result "default", w);
  session_initialize := fun w => (None, w);
  session_list_tools := fun w => (ToolsFailed err, w)
|}.

(** A backend that lists the given tools and answers every completion
    request with the same text. *)
Definition with_tools (tools : list tool) (reply : string) : backend unit := {|
  chat_completions_create := fun _ w => (Completed reply, w);
  session_call_tool := fun _ _ w => (text_result "default", w);
  session_initialize := fun w => (None, w);
  session_list_tools := fun w => (ToolsListed tools, w)
|}.

(** A transcript made of pairs that belong together: a tool exchange, or a
    user input with the assistant's answer. *)
Inductive paired : list message -> Prop :=
| paired_nil : paired []
| paired_exchange : forall llm_response tool_result rest,
    paired rest ->
    paired (assistant llm_response
              :: user ("Tool result: " ++ tool_result) :: rest)
| paired_turn : forall user_input response rest,
    paired rest ->
    paired (user user_input :: assistant response :: rest).

(** A line that [chat_loop] skips: nothing is left after stripping. *)
Definition is_blank (line : string) : bool := String.eqb (strip line) EmptyString.

(** The tool list that [_discover_tools] stores for a reply of the tool
    backend. *)
Definition discovered (reply : tools_reply) : list tool :=
  match reply with
  | ToolsListed tools => tools
  | ToolsFailed _ => []
  end.

(** The lines that start a turn or end the loop. *)
Definition not_blank (line : string) : bool := negb (is_blank line).

(** The last message of a request. *)
Definition last_message (messages : list message) : option message :=
  List.last (map Some messages) None.

(** * Properties *)

(** ** The JSON decoder never runs out of fuel *)


Lemma skip_ws_length s : String.length (skip_ws s) <= String.length s.
Proof.
  induction s as [| c r IH]; cbn; [lia |].
  destruct (is_ws c); cbn; lia.
Qed.

Lemma scanstring_shorter n : forall s acc k r,
  String.length s <= n ->
  scanstring s acc = Parsed k r ->
  String.length r < String.length s.
Proof.
  induction n as [| n IH]; intros s acc k r Hn H;
    (destruct s as [| c s]; [discriminate | cbn [String.length] in Hn; try lia]).
  cbn [scanstring] in H.
  repeat (break_match_in H; try discriminate; subst);
    cbn [String.length] in *;
    first [ injection H as _ <-; cbn [String.length]; lia
          | apply IH in H; cbn [String.length] in *; lia ].
Qed.

Lemma scanstring_fuel n : forall s acc,
  String.length s <= n -> scanstring s acc <> OutOfFuel.
Proof.
  induction n as [| n IH]; intros s acc Hn;
    (destruct s as [| c s]; [discriminate | cbn [String.length] in Hn; try lia]).
  cbn [scanstring].
  repeat (break_match_goal; try discriminate; subst);
    cbn [String.length] in *; apply IH; cbn [String.length]; lia.
Qed.

Lemma span_digits_length s : forall d t,
  span_digits s = (d, t) -> String.length s = String.length d + String.length t.
Proof.
  induction s as [| c r IH]; intros d t H; cbn in H.
  - injection H as <- <-. reflexivity.
  - destruct (is_digit c).
    + destruct (span_digits r) as [d' t'] eqn:E. injection H as <- <-.
      cbn. rewrite (IH d' t' eq_refl). reflexivity.
    + injection H as <- <-. reflexivity.
Qed.

Lemma span_digits_digit c r d t :
  is_digit c = true ->
  span_digits (String c r) = (d, t) -> String.length t <= String.length r.
Proof.
  intros Hd H. cbn in H. rewrite Hd in H.
  destruct (span_digits r) as [d' t'] eqn:E. injection H as _ <-.
  apply span_digits_length in E. lia.
Qed.

Lemma match_integer_shorter s lexeme r :
  match_integer s = Some (lexeme, r) -> String.length r < String.length s.
Proof.
  unfold match_integer. intros H.
  destruct s as [| c s']; [discriminate |].
  destruct (Ascii.eqb c "-").
  - destruct s' as [| c1 s'']; [discriminate |].
    destruct (Ascii.eqb c1 "0").
    { injection H as _ <-. cbn. lia. }
    destruct (is_digit c1) eqn:Hd; [| discriminate].
    destruct (span_digits (String c1 s'')) as [d t] eqn:E.
    injection H as _ <-. apply span_digits_digit in E; [cbn; lia | exact Hd].
  - destruct (Ascii.eqb c "0").
    { injection H as _ <-. cbn. lia. }
    destruct (is_digit c) eqn:Hd; [| discriminate].
    destruct (span_digits (String c s')) as [d t] eqn:E.
    injection H as _ <-. apply span_digits_digit in E; [cbn; lia | exact Hd].
Qed.

Lemma match_frac_length s frac r :
  match_frac s = (frac, r) -> String.length r <= String.length s.
Proof.
  unfold match_frac. intros H.
  destruct s as [| c s']; [injection H as _ <-; lia |].
  destruct (Ascii.eqb c "."); [| injection H as _ <-; lia].
  destruct (span_digits s') as [d t] eqn:E. apply span_digits_length in E.
  destruct d; injection H as _ <-; cbn in *; lia.
Qed.

Lemma match_exp_length s e r :
  match_exp s = (e, r) -> String.length r <= String.length s.
Proof.
  unfold match_exp. intros H.
  destruct s as [| c s']; [injection H as _ <-; lia |].
  destruct (Ascii.eqb c "e" || Ascii.eqb c "E"); [| injection H as _ <-; lia].
  assert (Hs : forall sign r1 d t,
             String.length r1 <= String.length s' ->
             span_digits r1 = (d, t) ->
             match d with
             | EmptyString => (EmptyString, String c s')
             | String _ _ => (String c (sign ++ d), t)
             end = (e, r) ->
             String.length r <= String.length (String c s')).
  { intros sign r1 d t Hr1 E Hm. apply span_digits_length in E.
    destruct d; injection Hm as _ <-; cbn in *; lia. }
  destruct s' as [| g r'].
  - destruct (span_digits EmptyString) as [d t] eqn:E.
    eapply (Hs EmptyString); [| exact E | exact H]. lia.
  - destruct (Ascii.eqb g "-" || Ascii.eqb g "+").
    + destruct (span_digits r') as [d t] eqn:E.
      eapply (Hs (String g EmptyString)); [| exact E | exact H]. cbn; lia.
    + destruct (span_digits (String g r')) as [d t] eqn:E.
      eapply (Hs EmptyString); [| exact E | exact H]. lia.
Qed.

Lemma match_number_shorter s v r :
  match_number s = Some (v, r) -> String.length r < String.length s.
Proof.
  unfold match_number. intros H.
  destruct (match_integer s) as [[lexeme s1] |] eqn:Ei; [| discriminate].
  destruct (match_frac s1) as [frac s2] eqn:Ef.
  destruct (match_exp s2) as [e s3] eqn:Ee.
  apply match_integer_shorter in Ei.
  apply match_frac_length in Ef. apply match_exp_length in Ee.
  assert (r = s3) by (destruct frac, e; injection H as _ <-; reflexivity).
  subst. lia.
Qed.

Lemma startswith_drop s : forall p,
  startswith s p = true ->
  String.length (drop (String.length p) s) + String.length p = String.length s.
Proof.
  induction s as [| c r IH]; intros [| a p] H; cbn in *; try discriminate; try lia.
  apply andb_true_iff in H. destruct H as [_ H]. specialize (IH p H). lia.
Qed.

Lemma scan_atom_shorter s v r :
  scan_atom s = Parsed v r -> String.length r < String.length s.
Proof.
  unfold scan_atom. intros H.
  repeat (break_match_in H; try discriminate; subst);
    try (injection H as _ <-);
    match goal with
    | E : startswith _ _ = true |- _ =>
        apply startswith_drop in E; cbn [String.length drop] in *; lia
    | E : match_number _ = Some _ |- _ =>
        apply match_number_shorter in E; exact E
    end.
Qed.

Lemma scan_atom_fuel s : scan_atom s <> OutOfFuel.
Proof.
  unfold scan_atom. repeat (break_match_goal; try discriminate).
Qed.

Lemma skip_ws_cons s c r :
  skip_ws s = String c r -> String.length r < String.length s.
Proof.
  intros H. pose proof (skip_ws_length s) as L. rewrite H in L. cbn in L. lia.
Qed.


Lemma scan_once_step fuel :
  scans_within_fuel fuel ->
  forall s, 2 * String.length s < S fuel ->
    scan_once (S fuel) s <> OutOfFuel
    /\ forall v r, scan_once (S fuel) s = Parsed v r ->
                   String.length r < String.length s.
Proof.
  intros (_ & IHo & IHa) s Hs. cbn [scan_once].
  destruct s as [| c s']; [split; [discriminate | intros; discriminate] |].
  cbn [String.length] in Hs.
  destruct (Ascii.eqb c dquote).
  { pose proof (scanstring_fuel _ s' [] (le_n _)) as Hf.
    destruct (scanstring s' []) as [k r' | |] eqn:E;
      split; try discriminate; try congruence.
    intros v r [= _ <-]. apply scanstring_shorter with (n := String.length s') in E;
      cbn; lia. }
  destruct (Ascii.eqb c "{").
  { destruct (skip_ws s') as [| c1 r1] eqn:E;
      [split; [discriminate | intros; discriminate] |].
    apply skip_ws_cons in E.
    destruct (Ascii.eqb c1 "}").
    { split; [discriminate |]. intros v r [= _ <-]. cbn; lia. }
    destruct (Ascii.eqb c1 dquote);
      [| split; [discriminate | intros; discriminate]].
    destruct (IHo r1 [] ltac:(lia)) as [Hf Hl]. split; [exact Hf |].
    intros v r H. apply Hl in H. cbn; lia. }
  destruct (Ascii.eqb c "[").
  { destruct (skip_ws s') as [| c1 r1] eqn:E;
      [split; [discriminate | intros; discriminate] |].
    apply skip_ws_cons in E.
    destruct (Ascii.eqb c1 "]").
    { split; [discriminate |]. intros v r [= _ <-]. cbn; lia. }
    destruct (IHa (String c1 r1) [] ltac:(cbn; lia)) as [Hf Hl]. split; [exact Hf |].
    intros v r H. apply Hl in H. cbn in *; lia. }
  split; [apply scan_atom_fuel |].
  intros v r H. apply scan_atom_shorter in H. exact H.
Qed.

Lemma object_pairs_step fuel :
  scans_within_fuel fuel ->
  forall s pairs, 2 * String.length s < S fuel ->
    object_pairs (S fuel) s pairs <> OutOfFuel
    /\ forall v r, object_pairs (S fuel) s pairs = Parsed v r ->
                   String.length r < String.length s.
Proof.
  intros (IHv & IHo & _) s pairs Hs. cbn [object_pairs].
  pose proof (scanstring_fuel _ s [] (le_n _)) as Hf.
  destruct (scanstring s []) as [key r0 | |] eqn:E;
    [| split; [discriminate | intros; discriminate] | congruence].
  apply scanstring_shorter with (n := String.length s) in E; [| lia].
  destruct (skip_ws r0) as [| c1 r1] eqn:E1;
    [split; [discriminate | intros; discriminate] |].
  apply skip_ws_cons in E1.
  destruct (Ascii.eqb c1 ":"); [| split; [discriminate | intros; discriminate]].
  pose proof (skip_ws_length r1) as L1.
  destruct (IHv (skip_ws r1) ltac:(lia)) as [Hfv Hlv].
  destruct (scan_once fuel (skip_ws r1)) as [value r2 | |] eqn:E2;
    [| split; [discriminate | intros; discriminate] | congruence].
  specialize (Hlv _ _ eq_refl).
  destruct (skip_ws r2) as [| c3 r3] eqn:E3;
    [split; [discriminate | intros; discriminate] |].
  apply skip_ws_cons in E3.
  destruct (Ascii.eqb c3 "}").
  { split; [discriminate |]. intros v r [= _ <-]. lia. }
  destruct (Ascii.eqb c3 ","); [| split; [discriminate | intros; discriminate]].
  destruct (skip_ws r3) as [| c4 r4] eqn:E4;
    [split; [discriminate | intros; discriminate] |].
  apply skip_ws_cons in E4.
  destruct (Ascii.eqb c4 dquote); [| split; [discriminate | intros; discriminate]].
  destruct (IHo r4 (pairs ++ [(key, value)])%list ltac:(lia)) as [Hfo Hlo].
  split; [exact Hfo |]. intros v r H. apply Hlo in H. lia.
Qed.

Lemma array_values_step fuel :
  scans_within_fuel fuel ->
  forall s values, 2 * String.length s + 1 < S fuel ->
    array_values (S fuel) s values <> OutOfFuel
    /\ forall v r, array_values (S fuel) s values = Parsed v r ->
                   String.length r < String.length s.
Proof.
  intros (IHv & _ & IHa) s values Hs. cbn [array_values].
  destruct (IHv s ltac:(lia)) as [Hfv Hlv].
  destruct (scan_once fuel s) as [value r0 | |] eqn:E;
    [| split; [discriminate | intros; discriminate] | congruence].
  specialize (Hlv _ _ eq_refl).
  destruct (skip_ws r0) as [| c1 r1] eqn:E1;
    [split; [discriminate | intros; discriminate] |].
  apply skip_ws_cons in E1.
  destruct (Ascii.eqb c1 "]").
  { split; [discriminate |]. intros v r [= _ <-]. lia. }
  destruct (Ascii.eqb c1 ","); [| split; [discriminate | intros; discriminate]].
  pose proof (skip_ws_length r1) as L1.
  destruct (IHa (skip_ws r1) (values ++ [value])%list ltac:(lia)) as [Hfa Hla].
  split; [exact Hfa |]. intros v r H. apply Hla in H. lia.
Qed.

Lemma scans_within_any_fuel fuel : scans_within_fuel fuel.
Proof.
  induction fuel as [| fuel IH].
  - repeat split; intros; lia.
  - split; [apply scan_once_step; exact IH |].
    split; [apply object_pairs_step; exact IH | apply array_values_step; exact IH].
Qed.

(** [decode] gives the scanner enough fuel for every input, so the fuel is
    not visible in the result of [json.loads]. *)
Lemma decode_never_out_of_fuel s : decode s <> OutOfFuel.
Proof.
  unfold decode, fuel_for.
  pose proof (skip_ws_length s) as L.
  destruct (scans_within_any_fuel (2 * String.length s + 1)) as (Hv & _ & _).
  destruct (Hv (skip_ws s) ltac:(lia)) as [Hf _].
  destruct (scan_once _ (skip_ws s)) as [v r | |]; [| discriminate | congruence].
  destruct (skip_ws r); discriminate.
Qed.

(** ** The tool-call extractor *)


Lemma brace_depth_take_S c r n :
  brace_depth (take (S n) (String c r))
  = ((if Ascii.eqb c "{" then 1 else if Ascii.eqb c "}" then -1 else 0)
     + brace_depth (take n r))%Z.
Proof. reflexivity. Qed.

(** With a counter that no prefix brings back to zero the loop runs to the
    end of the text and [end_index] keeps its initial value. *)
Lemma scan_braces_unbalanced s : forall i brace_count,
  (forall n, 0 < n <= String.length s ->
             (brace_count + brace_depth (take n s))%Z <> 0%Z) ->
  scan_braces s i brace_count = 0%Z.
Proof.
  induction s as [| c r IH]; intros i bc H; [reflexivity |].
  assert (H1 := H 1 ltac:(cbn; lia)).
  assert (HS : forall n, 0 < n <= String.length r ->
                 (bc + brace_depth (take (S n) (String c r)))%Z <> 0%Z)
    by (intros n Hn; apply H; cbn; lia).
  rewrite brace_depth_take_S in H1. cbn [take brace_depth] in H1.
  cbn [scan_braces].
  destruct (Ascii.eqb c "{") eqn:E1.
  - apply IH. intros n Hn. specialize (HS n Hn).
    rewrite brace_depth_take_S, E1 in HS. lia.
  - destruct (Ascii.eqb c "}") eqn:E2.
    + replace (bc - 1 =? 0)%Z with false by (symmetry; apply Z.eqb_neq; lia).
      apply IH. intros n Hn. specialize (HS n Hn).
      rewrite brace_depth_take_S, E1, E2 in HS. lia.
    + apply IH. intros n Hn. specialize (HS n Hn).
      rewrite brace_depth_take_S, E1, E2 in HS. lia.
Qed.

(** The extractor never raises. *)
Lemma extract_tool_call_returns text :
  exists r, _extract_tool_call text = Return r.
Proof.
  unfold _extract_tool_call.
  destruct (negb (contains MARKER text)); [eexists; reflexivity |].
  unfold extract_body.
  destruct (startswith _ "{"); [| eexists; reflexivity].
  unfold loads.
  destruct (decode _); eexists; reflexivity.
Qed.

Lemma loads_empty : loads EmptyString = Raise JSONDecodeError.
Proof. reflexivity. Qed.

(** What the extractor returns once the marker and the opening brace are
    there: the decoded slice, or nothing when the slice does not decode. *)
Lemma extract_tool_call_submits text :
  contains MARKER text = true ->
  startswith (after_marker text) "{" = true ->
  submitted_json text
  = Some (take (clamp (String.length (after_marker text))
                  (scan_braces (after_marker text) 0 0))
            (after_marker text))
  /\ _extract_tool_call text
     = match loads (take (clamp (String.length (after_marker text))
                            (scan_braces (after_marker text) 0 0))
                      (after_marker text)) with
       | Return v => Return (Some v)
       | Raise _ => Return None
       end.
Proof.
  intros Hm Hs.
  unfold submitted_json, _extract_tool_call, extract_body.
  fold (after_marker text). rewrite Hm, Hs. cbn [negb].
  unfold slice_to. split; [reflexivity |].
  unfold loads. destruct (decode _); reflexivity.
Qed.

(** On every text the extractor returns what [json.loads] makes of the
    submitted slice, and [None] when nothing is submitted or the slice does
    not decode. *)
Lemma extract_tool_call_by_slice text :
  _extract_tool_call text
  = match submitted_json text with
    | None => Return None
    | Some slice =>
        match loads slice with
        | Return v => Return (Some v)
        | Raise _ => Return None
        end
    end.
Proof.
  unfold _extract_tool_call, submitted_json, extract_body.
  fold (after_marker text).
  destruct (negb (contains MARKER text)); [reflexivity |].
  destruct (startswith (after_marker text) "{"); [| reflexivity].
  unfold loads. destruct (decode _); reflexivity.
Qed.

(** The two checks below decide the hypotheses of the theorems on a given
    text. *)
Lemma never_balanced_check s :
  forallb (fun n => negb (brace_depth (take n s) =? 0)%Z)
    (seq 1 (String.length s)) = true ->
  never_balanced s.
Proof.
  intros H n Hn. rewrite forallb_forall in H.
  specialize (H n ltac:(apply in_seq; lia)).
  apply negb_true_iff, Z.eqb_neq in H. exact H.
Qed.


(** When the counter never returns to zero the slice up to [end_index] is
    empty. *)
Lemma unbalanced_slice s :
  never_balanced s ->
  take (clamp (String.length s) (scan_braces s 0 0)) s = EmptyString.
Proof.
  intros Hn.
  assert (H0 : scan_braces s 0 0 = 0%Z).
  { apply scan_braces_unbalanced. intros n Hlen. rewrite Z.add_0_l. now apply Hn. }
  rewrite H0. unfold clamp. change (0 <? 0)%Z with false. cbv iota.
  replace (Z.to_nat (Z.min _ 0)) with 0 by lia. reflexivity.
Qed.

(** C7, as the code has it.  When the marker is there, the text after it
    starts with an opening brace and the depth counter never returns to
    zero, the slice handed to the JSON parser is the empty text (the end
    index keeps its initial value 0), and the extractor returns [None]. *)
Theorem unbalanced_slice_is_empty (text : string) :
  contains MARKER text = true ->
  startswith (after_marker text) "{" = true ->
  never_balanced (after_marker text) ->
  submitted_json text = Some EmptyString
  /\ _extract_tool_call text = Return None.
Proof.
  intros Hm Hs Hn.
  destruct (extract_tool_call_submits text Hm Hs) as [Hsub Hex].
  rewrite (unbalanced_slice _ Hn) in Hsub, Hex.
  rewrite loads_empty in Hex. auto.
Qed.

Lemma unbalanced_slice_is_empty_witness :
  submitted_json missing_brace_call = Some EmptyString
  /\ _extract_tool_call missing_brace_call = Return None.
Proof.
  apply (unbalanced_slice_is_empty missing_brace_call).
  - vm_compute; reflexivity.
  - vm_compute; reflexivity.
  - apply never_balanced_check. vm_compute; reflexivity.
Defined.

(** C7 as stated fails on the text whose final brace is missing: the marker
    is there, the rest starts with a brace and never balances, and the slice
    handed to the parser is empty while the text after the marker is not. *)
Lemma unbalanced_slice_is_not_the_remainder :
  contains MARKER missing_brace_call = true
  /\ startswith (after_marker missing_brace_call) "{" = true
  /\ never_balanced (after_marker missing_brace_call)
  /\ after_marker missing_brace_call
     = "{" ++ Q ++ "tool_name" ++ Q ++ ": " ++ Q ++ "x" ++ Q ++ ", "
       ++ Q ++ "arguments" ++ Q ++ ": {}"
  /\ submitted_json missing_brace_call <> Some (after_marker missing_brace_call).
Proof.
  split; [vm_compute; reflexivity |].
  split; [vm_compute; reflexivity |].
  split; [apply never_balanced_check; vm_compute; reflexivity |].
  split; [vm_compute; reflexivity |].
  vm_compute. discriminate.
Qed.







Lemma append_length s t :
  String.length (s ++ t) = String.length s + String.length t.
Proof. induction s as [| c r IH]; cbn; [reflexivity | now rewrite IH]. Qed.

Lemma startswith_brace s :
  startswith s "{" = true -> exists r, s = String "{" r.
Proof.
  destruct s as [| c r]; cbn [startswith]; [discriminate |].
  destruct (Ascii.eqb "{" c) eqn:E; [| discriminate].
  apply Ascii.eqb_eq in E. subst c. intros _. exists r. reflexivity.
Qed.



(** C2.  The extractor loses a valid tool call whose string value holds a
    brace.  The object decodes on its own, with the query text intact; after
    the marker the brace counter also counts the closing brace inside the SQL
    text, so it reaches zero one brace early: the slice lacks the final brace
    of the object, does not decode, and the extractor returns [None].  The
    same happens to an object with as many opening as closing braces when a
    closing brace inside a string brings the counter to zero. *)
Theorem brace_in_string_value_is_not_extracted :
  loads brace_query_object = Return brace_query_value
  /\ submitted_json ("TOOL_CALL: " ++ brace_query_object)
     = Some ("{" ++ Q ++ "tool_name" ++ Q ++ ": " ++ Q ++ "run_select_query" ++ Q
               ++ ", " ++ Q ++ "arguments" ++ Q ++ ": {" ++ Q ++ "query" ++ Q
               ++ ": " ++ Q ++ "SELECT '}'" ++ Q ++ "}")
  /\ _extract_tool_call ("TOOL_CALL: " ++ brace_query_object) = Return None
  /\ loads brace_pair_object
     = Return (JDict [(codepoints "tool_name", JText "run_select_query");
                      (codepoints "arguments",
                       JDict [(codepoints "query", JText "SELECT '}}{{'")])])
  /\ brace_depth brace_pair_object = 0%Z
  /\ submitted_json ("TOOL_CALL: " ++ brace_pair_object)
     = Some ("{" ++ Q ++ "tool_name" ++ Q ++ ": " ++ Q ++ "run_select_query" ++ Q
               ++ ", " ++ Q ++ "arguments" ++ Q ++ ": {" ++ Q ++ "query" ++ Q
               ++ ": " ++ Q ++ "SELECT '}}")
  /\ _extract_tool_call ("TOOL_CALL: " ++ brace_pair_object) = Return None.
Proof.
  repeat split; vm_compute; reflexivity.
Qed.

(** The example of the specification: the call is extracted, with or
    without text after its closing brace. *)
Lemma extract_list_databases_call :
  _extract_tool_call list_databases_call
  = Return (Some (JDict [(codepoints "tool_name", JText "list_databases");
                         (codepoints "arguments", JDict [])]))
  /\ _extract_tool_call (list_databases_call ++ " and } then {")
     = _extract_tool_call list_databases_call.
Proof.
  split; vm_compute; reflexivity.
Qed.


(** What [json.loads] makes of a text that starts with an opening brace is
    an object. *)
Lemma object_pairs_dict fuel : forall s pairs v r,
  object_pairs fuel s pairs = Parsed v r -> exists d, v = JDict d.
Proof.
  induction fuel as [| fuel IH]; intros s pairs v r H; [discriminate |].
  cbn [object_pairs] in H.
  repeat (break_match_in H; try discriminate).
  - injection H as <- _. eexists; reflexivity.
  - eapply IH; exact H.
Qed.

Lemma loads_brace_is_dict s v :
  startswith s "{" = true -> loads s = Return v -> exists d, v = JDict d.
Proof.
  intros Hs H. destruct (startswith_brace s Hs) as [r ->].
  unfold loads, decode in H. change (skip_ws (String "{" r)) with (String "{" r) in H.
  destruct (fuel_for (String "{" r)) as [| fuel]; [discriminate |].
  cbn [scan_once] in H.
  change (Ascii.eqb "{" dquote) with false in H.
  change (Ascii.eqb "{" "{") with true in H. cbv iota in H.
  destruct (skip_ws r) as [| c1 r1]; [discriminate |].
  destruct (Ascii.eqb c1 "}").
  { destruct (skip_ws r1); [| discriminate]. injection H as <-.
    eexists; reflexivity. }
  destruct (Ascii.eqb c1 dquote); [| discriminate].
  destruct (object_pairs fuel r1 []) as [v' r' | |] eqn:E; try discriminate.
  destruct (skip_ws r'); [| discriminate]. injection H as <-.
  eapply object_pairs_dict; exact E.
Qed.

Lemma startswith_take_brace s n v :
  startswith s "{" = true ->
  loads (take n s) = Return v ->
  startswith (take n s) "{" = true.
Proof.
  intros Hs Hl. destruct (startswith_brace s Hs) as [r ->].
  destruct n as [| n]; [discriminate | reflexivity].
Qed.

(** The extractor returns [None] or an object, so a returned value is never
    mistaken for [None] by the caller, and subscripting it with a key can
    fail with [KeyError] only. *)
Lemma extract_tool_call_is_object text v :
  _extract_tool_call text = Return (Some v) -> exists d, v = JDict d.
Proof.
  intros H.
  destruct (contains MARKER text) eqn:Hm.
  2:{ unfold _extract_tool_call in H. rewrite Hm in H. discriminate. }
  destruct (startswith (after_marker text) "{") eqn:Hs.
  2:{ unfold _extract_tool_call, extract_body in H. fold (after_marker text) in H.
      rewrite Hm, Hs in H. discriminate. }
  destruct (extract_tool_call_submits text Hm Hs) as [_ Hex].
  rewrite Hex in H.
  destruct (loads _) as [v' | e] eqn:Hl; [| discriminate].
  injection H as <-.
  apply (loads_brace_is_dict _ _ (startswith_take_brace _ _ _ Hs Hl) Hl).
Qed.

Lemma extract_tool_call_is_object_witness :
  exists d,
    JDict [(codepoints "tool_name", JText "list_databases");
           (codepoints "arguments", JDict [])] = JDict d.
Proof.
  apply (extract_tool_call_is_object list_databases_call).
  vm_compute; reflexivity.
Defined.

(** X2.  Without the marker the extractor returns [None] and no text reaches the
    JSON parser. *)
Lemma extract_without_marker text :
  contains MARKER text = false ->
  _extract_tool_call text = Return None /\ submitted_json text = None.
Proof.
  intros Hm. unfold _extract_tool_call, submitted_json. rewrite Hm. auto.
Qed.

Lemma extract_without_marker_witness :
  _extract_tool_call "There are two databases." = Return None
  /\ submitted_json "There are two databases." = None.
Proof.
  apply (extract_without_marker "There are two databases.").
  vm_compute; reflexivity.
Defined.

(** X3.  With the marker, but no opening brace at the start of the stripped text
    after it, the extractor returns [None] without scanning for braces or
    parsing. *)
Lemma extract_without_open_brace text :
  contains MARKER text = true ->
  startswith (after_marker text) "{" = false ->
  _extract_tool_call text = Return None /\ submitted_json text = None.
Proof.
  intros Hm Hs. unfold _extract_tool_call, extract_body, submitted_json.
  fold (after_marker text). rewrite Hm, Hs. auto.
Qed.

Lemma extract_without_open_brace_witness :
  _extract_tool_call "I would use TOOL_CALL: list_databases {}" = Return None
  /\ submitted_json "I would use TOOL_CALL: list_databases {}" = None.
Proof.
  apply (extract_without_open_brace "I would use TOOL_CALL: list_databases {}");
    vm_compute; reflexivity.
Defined.


(** ** The prompt builder *)

(** C6 as stated fails: with no tools the prompt holds no sentence saying
    that no tools are available, in any letter case. *)
Lemma empty_tool_list_prompt_has_no_notice :
  contains "no tools available" (lower (_create_system_prompt [])) = false.
Proof. vm_compute; reflexivity. Qed.

(** C6, as the code has it.  With no tools the prompt is built all the same;
    the tool list under the header is empty, so the header line is followed
    by blank lines up to the instructions, and no notice about missing tools
    is added. *)
Theorem empty_tool_list_prompt :
  join NL (map tool_line []) = EmptyString
  /\ contains ("AVAILABLE MCP TOOLS:" ++ NL ++ NL ++ NL ++ "        INSTRUCTIONS:")
       (_create_system_prompt []) = true
  /\ contains "no tools" (lower (_create_system_prompt [])) = false
  /\ String.length (_create_system_prompt []) = 3193.
Proof.
  repeat split; vm_compute; reflexivity.
Qed.

(** ** The orchestration loop, pass by pass *)

#[local] Opaque _create_system_prompt.

Section OrchestratorFacts.

Context {World : Type} (B : backend World).

Lemma after_request_frame (st : state World) r st' :
  after_request st r st' ->
  requests st' = (requests st ++ [r])%list
  /\ conversation_history st' = conversation_history st
  /\ appended st' = appended st
  /\ available_tools st' = available_tools st.
Proof.
  intros [w ->]. repeat split.
Qed.

(** [get_llm_response] always returns a text: a failing backend is turned
    into the error text. *)
Lemma get_llm_response_returns user_message st :
  exists text st',
    get_llm_response B user_message st = (Return text, st')
    /\ after_request st (LLMRequest (request_messages st user_message)) st'.
Proof.
  unfold get_llm_response, bind, get_tools, get_history, try_except, groq_create.
  fold (request_messages st user_message).
  destruct (chat_completions_create B _ (world st)) as [[text | err] w];
    eexists; eexists; (split; [reflexivity | exists w; reflexivity]).
Qed.

(** [execute_mcp_tool] returns a text or raises [MCPToolError], after
    exactly one tool request. *)
Lemma execute_mcp_tool_outcome tool_name arguments st :
  exists r st',
    execute_mcp_tool B tool_name arguments st = (r, st')
    /\ after_request st (ToolRequest tool_name arguments) st'
    /\ ((exists text, r = Return text) \/ (exists msg, r = Raise (MCPToolError msg))).
Proof.
  unfold execute_mcp_tool, try_except, bind, call_tool.
  destruct (session_call_tool B tool_name arguments (world st))
    as [[res | err] w] eqn:E; cbn.
  - destruct (isError res); cbn.
    + eexists; eexists; split; [reflexivity | split; [exists w; reflexivity |]].
      right; eexists; reflexivity.
    + destruct (result_content res) as [ | [t | d | o] others | ]; cbn;
        (eexists; eexists; split; [reflexivity | split; [exists w; reflexivity |]];
         left; eexists; reflexivity).
  - eexists; eexists; split; [reflexivity | split; [exists w; reflexivity |]].
    right; eexists; reflexivity.
Qed.


(** The pass ends the turn with the response when no call is extracted. *)
Lemma turn_iteration_no_call m st llm_response st1 :
  get_llm_response B m st = (Return llm_response, st1) ->
  _extract_tool_call llm_response = Return None ->
  turn_iteration B m st = (Return (Finish llm_response), st1).
Proof.
  intros Hl He. unfold turn_iteration, bind, lift.
  rewrite Hl, He. reflexivity.
Qed.

(** A failing lookup in the extracted object leaves the [try] block through
    the handler, which does not name its exception. *)
Lemma turn_iteration_lookup_raises m st llm_response st1 tool_call e :
  get_llm_response B m st = (Return llm_response, st1) ->
  _extract_tool_call llm_response = Return (Some tool_call) ->
  getitem tool_call "tool_name" = Raise e
  \/ (exists n, getitem tool_call "tool_name" = Return n
                /\ getitem tool_call "arguments" = Raise e) ->
  (forall msg, e <> MCPToolError msg) ->
  turn_iteration B m st = (Raise e, st1).
Proof.
  intros Hl He Hg Hne. unfold turn_iteration, bind, lift, try_except.
  rewrite Hl, He.
  destruct Hg as [Hg | [n [Hn Hg]]].
  - rewrite Hg. destruct e; try reflexivity. exfalso; eapply Hne; reflexivity.
  - rewrite Hn, Hg. destruct e; try reflexivity. exfalso; eapply Hne; reflexivity.
Qed.

(** A pass that reaches the tool: success extends the transcript and
    continues, [MCPToolError] ends the turn with the error text. *)
Lemma turn_iteration_tool m st llm_response st1 tool_call tool_name arguments r st2 :
  get_llm_response B m st = (Return llm_response, st1) ->
  _extract_tool_call llm_response = Return (Some tool_call) ->
  getitem tool_call "tool_name" = Return tool_name ->
  getitem tool_call "arguments" = Return arguments ->
  execute_mcp_tool B tool_name arguments st1 = (r, st2) ->
  turn_iteration B m st =
  match r with
  | Return tool_result =>
      (Return (Continue FOLLOW_UP),
       extended [assistant llm_response; user ("Tool result: " ++ tool_result)] st2)
  | Raise (MCPToolError msg) =>
      (Return (Finish ("I encountered an error while querying the database: " ++ msg)),
       st2)
  | Raise e => (Raise e, st2)
  end.
Proof.
  intros Hl He Hn Ha Hx. unfold turn_iteration, bind, lift, try_except.
  rewrite Hl, He, Hn, Ha, Hx.
  destruct r as [tool_result | e]; [reflexivity |].
  destruct e; reflexivity.
Qed.

Lemma getitem_raises v key e :
  getitem v key = Raise e -> forall msg, e <> MCPToolError msg.
Proof.
  unfold getitem. destruct v; try (intros [= <-]; discriminate).
  destruct (dict_get pairs (codepoints key)); intros [= <-]; discriminate.
Qed.

(** What one pass does to the state, whatever the backends answer: one LLM
    request, at most one tool request, and two transcript entries exactly
    when the pass continues. *)
Lemma turn_iteration_effect m st :
  exists r st' new d,
    turn_iteration B m st = (r, st')
    /\ requests st' = (requests st ++ new)%list
    /\ conversation_history st' = (conversation_history st ++ d)%list
    /\ appended st' = (appended st ++ d)%list
    /\ available_tools st' = available_tools st
    /\ llm_calls new = 1 /\ tool_calls new <= 1
    /\ match r with
       | Return (Continue next_message) =>
           next_message = FOLLOW_UP
           /\ (exists llm_response tool_result,
                 d = [assistant llm_response;
                      user ("Tool result: " ++ tool_result)])
           /\ tool_calls new = 1
       | _ => d = []
       end.
Proof.
  destruct (get_llm_response_returns m st) as (resp & st1 & Hl & Hr1).
  apply after_request_frame in Hr1. destruct Hr1 as (R1 & H1 & A1 & T1).
  destruct (extract_tool_call_returns resp) as [[tc |] He].
  2:{ exists (Return (Finish resp)), st1, [LLMRequest (request_messages st m)], [].
      rewrite (turn_iteration_no_call _ _ _ _ Hl He), !app_nil_r.
      repeat split; auto. }
  destruct (getitem tc "tool_name") as [n | e] eqn:Hn.
  2:{ exists (Raise e), st1, [LLMRequest (request_messages st m)], [].
      rewrite (turn_iteration_lookup_raises _ _ _ _ _ e Hl He (or_introl Hn)
                 (getitem_raises _ _ _ Hn)), !app_nil_r.
      repeat split; auto. }
  destruct (getitem tc "arguments") as [a | e] eqn:Ha.
  2:{ exists (Raise e), st1, [LLMRequest (request_messages st m)], [].
      rewrite (turn_iteration_lookup_raises _ _ _ _ _ e Hl He
                 (or_intror (ex_intro _ n (conj Hn Ha)))
                 (getitem_raises _ _ _ Ha)), !app_nil_r.
      repeat split; auto. }
  destruct (execute_mcp_tool_outcome n a st1) as (r & st2 & Hx & Hr2 & Hcase).
  apply after_request_frame in Hr2. destruct Hr2 as (R2 & H2 & A2 & T2).
  rewrite (turn_iteration_tool _ _ _ _ _ _ _ _ _ Hl He Hn Ha Hx).
  destruct Hcase as [[text ->] | [msg ->]].
  - eexists; eexists.
    exists [LLMRequest (request_messages st m); ToolRequest n a].
    exists [assistant resp; user ("Tool result: " ++ text)].
    split; [reflexivity |]. unfold extended; cbn.
    rewrite R2, R1, H2, H1, A2, A1, T2, T1, <- app_assoc.
    repeat split; auto. exists resp, text; reflexivity.
  - eexists; eexists.
    exists [LLMRequest (request_messages st m); ToolRequest n a], [].
    split; [reflexivity |].
    rewrite R2, R1, H2, H1, A2, A1, T2, T1, <- app_assoc, !app_nil_r.
    repeat split; auto.
Qed.

Lemma llm_calls_app a b : llm_calls (a ++ b) = llm_calls a + llm_calls b.
Proof. unfold llm_calls. now rewrite filter_app, length_app. Qed.

Lemma tool_calls_app a b : tool_calls (a ++ b) = tool_calls a + tool_calls b.
Proof. unfold tool_calls. now rewrite filter_app, length_app. Qed.

(** The loop with [n] passes left issues at most [n] requests of each kind
    and appends at most [2 * n] entries; the entries go to the end of the
    transcript, and nothing already there is changed. *)
Lemma turn_loop_effect n : forall m st,
  exists r st' new d,
    turn_loop B n m st = (r, st')
    /\ requests st' = (requests st ++ new)%list
    /\ conversation_history st' = (conversation_history st ++ d)%list
    /\ appended st' = (appended st ++ d)%list
    /\ available_tools st' = available_tools st
    /\ llm_calls new <= n /\ tool_calls new <= n /\ List.length d <= 2 * n.
Proof.
  induction n as [| n IH]; intros m st.
  - exists (Return EXHAUSTED), st, [], []. cbn. rewrite !app_nil_r.
    repeat split; auto.
  - destruct (turn_iteration_effect m st)
      as (r & st1 & new & d & Hi & R & H & A & T & Ll & Lt & Hd).
    cbn [turn_loop]. unfold bind at 1. rewrite Hi.
    destruct r as [[m1 | answer] | e].
    + destruct (IH m1 st1) as (r2 & st2 & new2 & d2 & Hl2 & R2 & H2 & A2 & T2 & L2 & Lt2 & D2).
      exists r2, st2, (new ++ new2)%list, (d ++ d2)%list.
      rewrite Hl2, R2, R, H2, H, A2, A, T2, T, !app_assoc.
      rewrite llm_calls_app, tool_calls_app, length_app.
      destruct Hd as (_ & (resp & text & ->) & _).
      repeat split; auto; cbn [List.length]; lia.
    + exists (Return answer), st1, new, d. subst d.
      repeat split; auto; cbn; lia.
    + exists (Raise e), st1, new, d. subst d.
      repeat split; auto; cbn; lia.
Qed.







End OrchestratorFacts.

(** ** The turn orchestrator *)







(** C1.  The turn can raise to its caller.  When the object extracted from
    the response has no ["tool_name"] key, the lookup raises [KeyError]
    inside the [try] block; the handler names [MCPToolError] only, so the
    exception leaves [process_conversation_turn].  Here the completion
    backend answers [TOOL_CALL: {}]. *)
Theorem process_conversation_turn_raises_key_error :
  _extract_tool_call "TOOL_CALL: {}" = Return (Some (JDict []))
  /\ fst (process_conversation_turn scripted "How many databases are available?"
            (initial_state ([Completed "TOOL_CALL: {}"], [])))
     = Raise (KeyError "tool_name")
  /\ fst (process_conversation_turn scripted "How many databases are available?"
            (initial_state
               ([Completed ("TOOL_CALL: {" ++ Q ++ "tool_name" ++ Q ++ ": "
                              ++ Q ++ "list_databases" ++ Q ++ "}")], [])))
     = Raise (KeyError "arguments").
Proof.
  repeat split; vm_compute; reflexivity.
Qed.

(** The same for every backend: a response whose object lacks a key makes
    the turn raise [KeyError] in the pass that extracts it. *)
Lemma missing_key_raises
  {World : Type} (B : backend World) (user_message : string) (st st1 : state World)
  (llm_response : string) (tool_call : json) (e : exn) :
  get_llm_response B user_message st = (Return llm_response, st1) ->
  _extract_tool_call llm_response = Return (Some tool_call) ->
  getitem tool_call "tool_name" = Raise e
  \/ (exists n, getitem tool_call "tool_name" = Return n
                /\ getitem tool_call "arguments" = Raise e) ->
  process_conversation_turn B user_message st = (Raise e, st1).
Proof.
  intros Hl He Hg.
  unfold process_conversation_turn, max_iterations. cbn [turn_loop].
  unfold bind at 1.
  rewrite (turn_iteration_lookup_raises B _ _ _ _ _ e Hl He Hg); [reflexivity |].
  destruct Hg as [Hg | (n & _ & Hg)]; eapply getitem_raises; eassumption.
Qed.



(** ** The chat loop *)

(** C9.  The stored transcript is not chronological.  One user turn in which
    the model asks for a tool, the tool succeeds and the model then answers:
    the tool exchange is stored during the turn and the user's input only
    after it, so the input sits at index 2, behind the tool-call message
    (index 0) and the tool-result message (index 1) it gave rise to. *)
Theorem user_input_stored_after_tool_exchange :
  let st := snd (chat_loop scripted ["How many databases are available?"]
                   (initial_state
                      ([Completed list_databases_call;
                        Completed "There are two databases."],
                       [text_result "default, goteth_mainnet"]))) in
  conversation_history st
  = [assistant list_databases_call;
     user "Tool result: default, goteth_mainnet";
     user "How many databases are available?";
     assistant "There are two databases."].
Proof.
  vm_compute. reflexivity.
Qed.



Lemma window_skipn l : window l = skipn (List.length l - 20) l.
Proof.
  unfold window, list_slice_from, clamp. f_equal.
  change (-20 <? 0)%Z with true. cbv iota. lia.
Qed.

Lemma window_length l : List.length (window l) <= 20.
Proof. rewrite window_skipn, length_skipn. lia. Qed.

Lemma window_short l : List.length l <= 20 -> window l = l.
Proof.
  intros H. rewrite window_skipn.
  replace (List.length l - 20) with 0 by lia. reflexivity.
Qed.

(** Truncating, appending and truncating again keeps what truncating the
    whole log keeps. *)
Lemma window_app_window a b : window (window a ++ b) = window (a ++ b).
Proof.
  destruct (Nat.le_gt_cases (List.length a) 20) as [Hle | Hgt].
  - now rewrite (window_short a Hle).
  - rewrite !window_skipn, !skipn_app, skipn_skipn, !length_app, !length_skipn.
    f_equal; f_equal; lia.
Qed.

Section ChatLoopFacts.

Context {World : Type} (B : backend World).

(** One completed turn appends its entries to the log and keeps the last
    twenty entries of the transcript so extended. *)
Lemma chat_turn_window user_input st st' :
  chat_turn B user_input st = (Return tt, st') ->
  exists d,
    appended st' = (appended st ++ d)%list
    /\ conversation_history st' = window (conversation_history st ++ d).
Proof.
  unfold chat_turn, process_conversation_turn.
  destruct (turn_loop_effect B max_iterations user_input st)
    as (r & st1 & new & d & Hrun & _ & H & A & _).
  unfold bind at 1. rewrite Hrun.
  destruct r as [response | e]; [| discriminate].
  unfold bind, history_extend, get_history. cbn [conversation_history].
  set (h := (conversation_history st1 ++ [user user_input; assistant response])%list).
  intros Hret.
  exists (d ++ [user user_input; assistant response])%list.
  assert (Hh : h = (conversation_history st
                      ++ d ++ [user user_input; assistant response])%list)
    by (unfold h; rewrite H, <- app_assoc; reflexivity).
  destruct (20 <? Z.of_nat (List.length h))%Z eqn:Hlen.
  - injection Hret as <-. cbn. fold (window h).
    rewrite A, <- app_assoc, Hh. auto.
  - injection Hret as <-. cbn. fold h.
    rewrite A, <- app_assoc, <- Hh. split; [reflexivity |].
    symmetry. apply window_short. apply Z.ltb_ge in Hlen. lia.
Qed.

(** The transcript is the window of the log after any number of turns. *)
Lemma chat_turns_window lines : forall st e st',
  conversation_history st = window (appended st) ->
  chat_turns B lines st = (Return e, st') ->
  conversation_history st' = window (appended st').
Proof.
  induction lines as [| line rest IH]; intros st e st' Inv Hrun.
  - cbn [chat_turns] in Hrun. unfold ret in Hrun.
    apply (f_equal snd) in Hrun. cbn [snd] in Hrun. subst st'. exact Inv.
  - cbn [chat_turns] in Hrun.
    destruct (is_exit_keyword (lower (strip line))).
    { unfold ret in Hrun. apply (f_equal snd) in Hrun. cbn [snd] in Hrun.
      subst st'. exact Inv. }
    destruct (String.eqb (strip line) EmptyString).
    { eapply IH; eassumption. }
    unfold bind at 1 in Hrun.
    destruct (chat_turn B (strip line) st) as [[[] | e1] st1] eqn:Ht;
      [| discriminate].
    apply chat_turn_window in Ht. destruct Ht as (d & A & H).
    eapply IH; [| exact Hrun].
    rewrite H, A, Inv. apply window_app_window.
Qed.

Lemma initialize_session_frame st r st' :
  initialize_session B st = (r, st') ->
  conversation_history st' = conversation_history st
  /\ appended st' = appended st.
Proof.
  unfold initialize_session, _discover_tools, initialize, list_tools,
    set_tools, try_except, bind.
  destruct (session_initialize B (world st)) as [[err |] w]; cbn.
  - intros H. apply (f_equal snd) in H. cbn in H. subst st'.
    split; reflexivity.
  - destruct (session_list_tools B w) as [[tools | err] w']; cbn;
      intros H; apply (f_equal snd) in H; cbn in H; subst st';
      split; reflexivity.
Qed.

End ChatLoopFacts.

(** C5.  Whenever the chat loop has worked through its input lines (every
    turn completed), the transcript holds at most 20 entries, and they are
    the last entries of the log of everything appended, in the order in which
    they were appended. *)
Theorem transcript_is_sliding_window
  {World : Type} (B : backend World) (lines : list string)
  (st st' : state World) (e : loop_exit) :
  chat_loop B lines st = (Return e, st') ->
  List.length (conversation_history st') <= 20
  /\ conversation_history st'
     = skipn (List.length (appended st') - 20) (appended st').
Proof.
  intros Hrun.
  assert (Inv : conversation_history st' = window (appended st')).
  { unfold chat_loop in Hrun. unfold bind at 1 in Hrun.
    destruct (initialize_session B st) as [[[] | e0] st0]; [| discriminate].
    unfold bind at 1 in Hrun. cbn [new_history] in Hrun.
    eapply chat_turns_window; [| exact Hrun]. reflexivity. }
  rewrite Inv at 1. split; [apply window_length |].
  rewrite Inv. apply window_skipn.
Qed.

(** Eleven turns without tool calls append 22 entries; the first two are
    dropped. *)
Lemma transcript_is_sliding_window_witness :
  let lines := ["q1"; "q2"; "q3"; "q4"; "q5"; "q6"; "q7"; "q8"; "q9"; "q10"; "q11"] in
  let st' := snd (chat_loop (constant (Completed "ok") (text_result "default"))
                    lines (initial_state tt)) in
  List.length (appended st') = 22
  /\ List.length (conversation_history st') <= 20
  /\ conversation_history st'
     = skipn (List.length (appended st') - 20) (appended st')
  /\ hd_error (conversation_history st') = Some (user "q2").
Proof.
  cbv zeta.
  destruct (transcript_is_sliding_window
              (constant (Completed "ok") (text_result "default"))
              ["q1"; "q2"; "q3"; "q4"; "q5"; "q6"; "q7"; "q8"; "q9"; "q10"; "q11"]
              (initial_state tt)
              (snd (chat_loop (constant (Completed "ok") (text_result "default"))
                      ["q1"; "q2"; "q3"; "q4"; "q5"; "q6"; "q7"; "q8"; "q9"; "q10"; "q11"]
                      (initial_state tt)))
              AwaitingInput) as [Hlen Hwin].
  - vm_compute; reflexivity.
  - split; [vm_compute; reflexivity |].
    split; [exact Hlen |].
    split; [exact Hwin | vm_compute; reflexivity].
Defined.

(** ** More on the tool-call extractor *)

Lemma take_take s : forall m k, m <= k -> take m (take k s) = take m s.
Proof.
  induction s as [| c r IH]; intros [| m] [| k] H; cbn; try reflexivity; try lia.
  f_equal. apply IH. lia.
Qed.

Lemma take_length s : forall k,
  k <= String.length s -> String.length (take k s) = k.
Proof.
  induction s as [| c r IH]; intros [| k] H; cbn in *; try reflexivity; try lia.
  f_equal. apply IH. lia.
Qed.

Lemma take_drop s : forall k, s = take k s ++ drop k s.
Proof.
  induction s as [| c r IH]; intros [| k]; cbn; try reflexivity.
  f_equal. apply IH.
Qed.

(** Inside an open brace the loop either runs to the end of the text, the
    counter staying positive, or leaves at the first closing brace that
    brings the counter to zero. *)
Lemma scan_braces_cases s : forall i brace_count,
  (0 <= i)%Z -> (0 < brace_count)%Z ->
  (scan_braces s i brace_count = 0%Z
   /\ forall n, 0 < n <= String.length s ->
                (0 < brace_count + brace_depth (take n s))%Z)
  \/ (exists n,
        n < String.length s
        /\ scan_braces s i brace_count = (i + Z.of_nat (S n))%Z
        /\ (brace_count + brace_depth (take (S n) s) = 0)%Z
        /\ (forall m, 0 < m <= n ->
                      (0 < brace_count + brace_depth (take m s))%Z)
        /\ exists p, take (S n) s = p ++ "}").
Proof.
  induction s as [| c r IH]; intros i bc Hi Hbc.
  { left. split; [reflexivity |]. intros n Hn. cbn in Hn. lia. }
  assert (Hnext : forall bc',
    (0 < bc')%Z ->
    (bc' = bc + (if Ascii.eqb c "{" then 1 else if Ascii.eqb c "}" then -1 else 0))%Z ->
    (scan_braces r (i + 1) bc' = 0%Z
     /\ forall n, 0 < n <= String.length (String c r) ->
                  (0 < bc + brace_depth (take n (String c r)))%Z)
    \/ (exists n,
          n < String.length (String c r)
          /\ scan_braces r (i + 1) bc' = (i + Z.of_nat (S n))%Z
          /\ (bc + brace_depth (take (S n) (String c r)) = 0)%Z
          /\ (forall m, 0 < m <= n ->
                        (0 < bc + brace_depth (take m (String c r)))%Z)
          /\ exists p, take (S n) (String c r) = p ++ "}")).
  { intros bc' Hpos Hbc'.
    destruct (IH (i + 1)%Z bc' ltac:(lia) Hpos)
      as [[H0 Hall] | (n & Hn & He & Hz & Hpre & p & Hp)].
    - left. split; [exact H0 |]. intros [| n] Hn; [lia |].
      rewrite brace_depth_take_S.
      destruct n as [| n]; [cbn [take brace_depth]; lia |].
      specialize (Hall (S n) ltac:(cbn [String.length] in Hn; lia)). lia.
    - right. exists (S n). split; [cbn [String.length]; lia |].
      split; [rewrite He; lia |].
      split; [rewrite brace_depth_take_S; lia |].
      split.
      + intros [| m] Hm; [lia |]. rewrite brace_depth_take_S.
        destruct m as [| m]; [cbn [take brace_depth]; lia |].
        specialize (Hpre (S m) ltac:(lia)). lia.
      + exists (String c p). cbn [take append] in *. rewrite Hp. reflexivity. }
  cbn [scan_braces].
  destruct (Ascii.eqb c "{") eqn:E1.
  - apply Hnext; lia.
  - destruct (Ascii.eqb c "}") eqn:E2.
    + destruct (bc - 1 =? 0)%Z eqn:Ez.
      * apply Z.eqb_eq in Ez. right. exists 0.
        split; [cbn [String.length]; lia |].
        split; [lia |].
        split; [rewrite brace_depth_take_S, E1, E2; cbn [take brace_depth]; lia |].
        split; [intros m Hm; lia |].
        exists EmptyString. apply Ascii.eqb_eq in E2. subst c. reflexivity.
      * apply Z.eqb_neq in Ez. apply Hnext; lia.
    + apply Hnext; lia.
Qed.

(** X6.  What the extractor hands to the parser is the shortest
    brace-balanced prefix of the stripped text after the marker: either the
    braces never balance and the slice is empty, or the slice is a prefix
    that ends with a closing brace, whose braces balance at that brace and
    nowhere before. *)
Lemma submitted_slice_is_shortest_balanced_prefix (text : string) :
  contains MARKER text = true ->
  startswith (after_marker text) "{" = true ->
  exists slice,
    submitted_json text = Some slice
    /\ ((slice = EmptyString /\ never_balanced (after_marker text))
        \/ (balanced_at_end slice
            /\ (exists p, slice = p ++ "}")
            /\ exists trailing, after_marker text = slice ++ trailing)).
Proof.
  intros Hm Hs.
  destruct (extract_tool_call_submits text Hm Hs) as [Hsub _].
  rewrite Hsub. eexists; split; [reflexivity |].
  destruct (startswith_brace _ Hs) as [r Hr]. rewrite Hr.
  cbn [scan_braces]. change (Ascii.eqb "{" "{") with true. cbv iota.
  change (0 + 1)%Z with 1%Z.
  destruct (scan_braces_cases r 1 1 ltac:(lia) ltac:(lia))
    as [[H0 Hall] | (n & Hn & He & Hz & Hpre & p & Hp)].
  - left. rewrite H0. split.
    + unfold clamp. change (0 <? 0)%Z with false. cbv iota.
      replace (Z.to_nat (Z.min _ 0)) with 0 by lia. reflexivity.
    + intros [| k] Hk; [lia |]. rewrite brace_depth_take_S.
      change (Ascii.eqb "{" "{") with true. cbv iota.
      destruct k as [| k]; [cbn [take brace_depth]; lia |].
      specialize (Hall (S k) ltac:(cbn [String.length] in Hk; lia)). lia.
  - right. rewrite He.
    assert (Hc : clamp (String.length (String "{" r)) (1 + Z.of_nat (S n))
                 = S (S n)).
    { unfold clamp. cbn [String.length].
      replace (1 + Z.of_nat (S n) <? 0)%Z with false
        by (symmetry; apply Z.ltb_ge; lia).
      lia. }
    rewrite Hc.
    split; [split |].
    + intros m Hm'.
      rewrite take_length in Hm' by (cbn [String.length]; lia).
      rewrite take_take by lia.
      destruct m as [| m]; [lia |]. rewrite brace_depth_take_S.
      change (Ascii.eqb "{" "{") with true. cbv iota.
      destruct m as [| m]; [cbn [take brace_depth]; lia |].
      specialize (Hpre (S m) ltac:(lia)). lia.
    + rewrite brace_depth_take_S.
      change (Ascii.eqb "{" "{") with true. cbv iota. lia.
    + split.
      * exists (String "{" p). cbn [take append]. cbn [take] in Hp.
        rewrite Hp. reflexivity.
      * exists (drop (S (S n)) (String "{" r)). apply take_drop.
Qed.

Lemma submitted_slice_is_shortest_balanced_prefix_witness :
  exists slice,
    submitted_json ("TOOL_CALL: " ++ brace_query_object) = Some slice
    /\ ((slice = EmptyString
         /\ never_balanced (after_marker ("TOOL_CALL: " ++ brace_query_object)))
        \/ (balanced_at_end slice
            /\ (exists p, slice = p ++ "}")
            /\ exists trailing,
                 after_marker ("TOOL_CALL: " ++ brace_query_object)
                 = slice ++ trailing)).
Proof.
  apply (submitted_slice_is_shortest_balanced_prefix
           ("TOOL_CALL: " ++ brace_query_object));
    vm_compute; reflexivity.
Defined.

(** ** More on the backends' wrappers and on one turn *)

Section TurnFacts.

Context {World : Type} (B : backend World).

(** [get_llm_response] as one backend call. *)
Lemma get_llm_response_run user_message (st : state World) :
  get_llm_response B user_message st
  = let (reply, w) :=
      chat_completions_create B (request_messages st user_message) (world st) in
    (Return match reply with
            | Completed text => text
            | CompletionFailed err => "Error getting LLM response: " ++ err
            end,
     log_request (LLMRequest (request_messages st user_message)) (set_world w st)).
Proof.
  unfold get_llm_response, bind, get_tools, get_history, try_except, groq_create.
  fold (request_messages st user_message).
  destruct (chat_completions_create B _ (world st)) as [[text | err] w];
    reflexivity.
Qed.

(** The error text of [get_llm_response] holds the marker only if the
    backend's message does. *)
Lemma error_text_marker err :
  contains MARKER ("Error getting LLM response: " ++ err) = contains MARKER err.
Proof. reflexivity. Qed.

Lemma extract_no_marker text :
  contains MARKER text = false -> _extract_tool_call text = Return None.
Proof. intros H. unfold _extract_tool_call. rewrite H. reflexivity. Qed.

Lemma turn_without_call user_message (st st1 : state World) llm_response :
  get_llm_response B user_message st = (Return llm_response, st1) ->
  _extract_tool_call llm_response = Return None ->
  process_conversation_turn B user_message st = (Return llm_response, st1).
Proof.
  intros Hl He. unfold process_conversation_turn, max_iterations.
  cbn [turn_loop]. unfold bind at 1.
  rewrite (turn_iteration_no_call B _ _ _ _ Hl He). reflexivity.
Qed.

(** One pass in full: the requests it issues, the entries it appends and
    the message it continues with. *)
Lemma turn_iteration_run m (st : state World) :
  exists r st' tail d,
    turn_iteration B m st = (r, st')
    /\ requests st'
       = (requests st ++ LLMRequest (request_messages st m) :: tail)%list
    /\ (tail = [] \/ exists n a, tail = [ToolRequest n a])
    /\ conversation_history st' = (conversation_history st ++ d)%list
    /\ available_tools st' = available_tools st
    /\ match r with
       | Return (Continue next_message) =>
           next_message = FOLLOW_UP
           /\ (exists llm_response tool_result,
                 d = [assistant llm_response;
                      user ("Tool result: " ++ tool_result)])
           /\ tail <> []
       | _ => d = []
       end.
Proof.
  destruct (get_llm_response_returns B m st) as (resp & st1 & Hl & Hr1).
  apply after_request_frame in Hr1. destruct Hr1 as (R1 & H1 & _ & T1).
  destruct (extract_tool_call_returns resp) as [[tc |] He].
  2:{ exists (Return (Finish resp)), st1, [], [].
      rewrite (turn_iteration_no_call B _ _ _ _ Hl He), !app_nil_r.
      repeat split; auto. }
  destruct (getitem tc "tool_name") as [n | e] eqn:Hn.
  2:{ exists (Raise e), st1, [], [].
      rewrite (turn_iteration_lookup_raises B _ _ _ _ _ e Hl He (or_introl Hn)
                 (getitem_raises _ _ _ Hn)), !app_nil_r.
      repeat split; auto. }
  destruct (getitem tc "arguments") as [a | e] eqn:Ha.
  2:{ exists (Raise e), st1, [], [].
      rewrite (turn_iteration_lookup_raises B _ _ _ _ _ e Hl He
                 (or_intror (ex_intro _ n (conj Hn Ha)))
                 (getitem_raises _ _ _ Ha)), !app_nil_r.
      repeat split; auto. }
  destruct (execute_mcp_tool_outcome B n a st1) as (r & st2 & Hx & Hr2 & Hcase).
  apply after_request_frame in Hr2. destruct Hr2 as (R2 & H2 & _ & T2).
  rewrite (turn_iteration_tool B _ _ _ _ _ _ _ _ _ Hl He Hn Ha Hx).
  destruct Hcase as [[text ->] | [msg ->]].
  - eexists; eexists. exists [ToolRequest n a].
    exists [assistant resp; user ("Tool result: " ++ text)].
    split; [reflexivity |]. unfold extended; cbn.
    rewrite R2, R1, H2, H1, T2, T1, <- app_assoc.
    repeat split; auto.
    + right. exists n, a. reflexivity.
    + exists resp, text. reflexivity.
    + discriminate.
  - eexists; eexists. exists [ToolRequest n a], [].
    split; [reflexivity |].
    rewrite R2, R1, H2, H1, T2, T1, <- app_assoc, !app_nil_r.
    repeat split; auto. right. exists n, a. reflexivity.
Qed.

Lemma last_message_snoc l x : last_message (l ++ [x]) = Some x.
Proof.
  unfold last_message. rewrite map_app. cbn [map]. apply last_last.
Qed.

Lemma request_messages_shape (st : state World) m :
  hd_error (request_messages st m)
  = Some (system (_create_system_prompt (available_tools st)))
  /\ last_message (request_messages st m) = Some (user m).
Proof.
  split; [reflexivity |].
  unfold request_messages.
  change ([system (_create_system_prompt (available_tools st))]
            ++ conversation_history st ++ [user m])%list
    with (system (_create_system_prompt (available_tools st))
            :: (conversation_history st ++ [user m]))%list.
  rewrite app_comm_cons. apply last_message_snoc.
Qed.

(** The loop in full: what it appends are tool exchanges, at most one per
    tool request, and each completion request starts with the prompt of the
    session's tools and ends with the current message. *)
Lemma turn_loop_run n : forall m (st : state World),
  exists r st' tail d,
    turn_loop B n m st = (r, st')
    /\ (n = 0 /\ tail = [] /\ requests st' = requests st
        \/ requests st'
           = (requests st ++ LLMRequest (request_messages st m) :: tail)%list)
    /\ (forall msgs, In (LLMRequest msgs) tail ->
          hd_error msgs
          = Some (system (_create_system_prompt (available_tools st)))
          /\ last_message msgs = Some (user FOLLOW_UP))
    /\ conversation_history st' = (conversation_history st ++ d)%list
    /\ exchanges d
    /\ List.length d <= 2 * tool_calls tail
    /\ available_tools st' = available_tools st.
Proof.
  induction n as [| n IH]; intros m st.
  - exists (Return EXHAUSTED), st, [], []. cbn [turn_loop].
    split; [reflexivity |]. split; [left; auto |].
    split; [intros msgs [] |].
    split; [rewrite app_nil_r; reflexivity |].
    split; [constructor |]. split; [cbn; lia | reflexivity].
  - destruct (turn_iteration_run m st)
      as (r & st1 & tail & d & Hi & R & Htail & H & T & Hr).
    cbn [turn_loop]. unfold bind at 1. rewrite Hi.
    assert (Hno : forall msgs, ~ In (LLMRequest msgs) tail).
    { intros msgs Hin. destruct Htail as [-> | (a & b & ->)]; [destruct Hin |].
      destruct Hin as [Hin | []]. discriminate. }
    destruct r as [[m1 | answer] | e].
    + destruct Hr as (-> & (resp & text & ->) & Hne).
      destruct (IH FOLLOW_UP st1)
        as (r2 & st2 & tail2 & d2 & Hl2 & R2 & Hreq2 & H2 & E2 & L2 & T2).
      assert (Htc : tool_calls tail = 1).
      { destruct Htail as [-> | (a & b & ->)]; [congruence | reflexivity]. }
      destruct R2 as [(-> & -> & R2) | R2].
      * exists r2, st2, tail, ([assistant resp; user ("Tool result: " ++ text)] ++ d2)%list.
        rewrite Hl2, R2, R, H2, H, T2, T, <- app_assoc.
        split; [reflexivity |]. split; [right; reflexivity |].
        split; [intros msgs Hin; destruct (Hno _ Hin) |].
        split; [reflexivity |]. split; [constructor; exact E2 |].
        split; [| reflexivity].
        cbn [tool_calls filter List.length] in L2. rewrite length_app.
        cbn [List.length]. lia.
      * exists r2, st2,
          (tail ++ LLMRequest (request_messages st1 FOLLOW_UP) :: tail2)%list,
          ([assistant resp; user ("Tool result: " ++ text)] ++ d2)%list.
        rewrite Hl2, R2, R, H2, H, T2, T, <- !app_assoc.
        split; [reflexivity |]. split; [right; reflexivity |].
        split.
        { intros msgs Hin. apply in_app_or in Hin.
          destruct Hin as [Hin | [Hin | Hin]].
          - destruct (Hno _ Hin).
          - injection Hin as <-. rewrite <- T. apply request_messages_shape.
          - rewrite <- T. apply Hreq2. exact Hin. }
        split; [reflexivity |]. split; [constructor; exact E2 |].
        split; [| reflexivity].
        rewrite tool_calls_app, length_app. cbn [List.length].
        change (tool_calls (LLMRequest (request_messages st1 FOLLOW_UP) :: tail2))
          with (tool_calls tail2). lia.
    + exists (Return answer), st1, tail, d. subst d.
      split; [reflexivity |]. split; [right; exact R |].
      split; [intros msgs Hin; destruct (Hno _ Hin) |].
      split; [exact H |].
      split; [constructor |]. split; [cbn; lia | exact T].
    + exists (Raise e), st1, tail, d. subst d.
      split; [reflexivity |]. split; [right; exact R |].
      split; [intros msgs Hin; destruct (Hno _ Hin) |].
      split; [exact H |].
      split; [constructor |]. split; [cbn; lia | exact T].
Qed.

End TurnFacts.

(** X7.  A response from which no tool call is extracted is the answer of
    the turn, word for word: a plain answer, and also a response whose call
    is malformed, marker included.  The turn takes one completion request,
    no tool request, and leaves the transcript alone. *)
Lemma response_without_call_is_the_answer
  {World : Type} (B : backend World) (user_message : string)
  (st st1 : state World) (llm_response : string) :
  get_llm_response B user_message st = (Return llm_response, st1) ->
  _extract_tool_call llm_response = Return None ->
  process_conversation_turn B user_message st = (Return llm_response, st1)
  /\ requests st1
     = (requests st ++ [LLMRequest (request_messages st user_message)])%list
  /\ conversation_history st1 = conversation_history st.
Proof.
  intros Hl He. split; [apply turn_without_call; assumption |].
  rewrite get_llm_response_run in Hl.
  destruct (chat_completions_create B _ (world st)) as [reply w].
  injection Hl as _ <-. split; reflexivity.
Qed.

Lemma response_without_call_is_the_answer_witness :
  exists st1,
    process_conversation_turn (constant (Completed missing_brace_call)
                                 (text_result "default"))
      "How many databases are available?" (initial_state tt)
    = (Return missing_brace_call, st1)
    /\ requests st1
       = (requests (initial_state tt)
            ++ [LLMRequest (request_messages (initial_state tt)
                              "How many databases are available?")])%list
    /\ conversation_history st1 = conversation_history (initial_state tt).
Proof.
  eexists.
  apply (response_without_call_is_the_answer
           (constant (Completed missing_brace_call) (text_result "default"))
           "How many databases are available?" (initial_state tt)).
  - vm_compute; reflexivity.
  - vm_compute; reflexivity.
Defined.

(** X8.  A failing completion backend ends the turn with the text
    [Error getting LLM response: ...] as the answer, after that one request
    and without any tool request, as long as the backend's message does not
    itself hold the marker. *)
Lemma completion_failure_is_the_answer
  {World : Type} (B : backend World) (user_message : string)
  (st : state World) (err : string) (w : World) :
  chat_completions_create B (request_messages st user_message) (world st)
  = (CompletionFailed err, w) ->
  contains MARKER err = false ->
  process_conversation_turn B user_message st
  = (Return ("Error getting LLM response: " ++ err),
     log_request (LLMRequest (request_messages st user_message))
       (set_world w st)).
Proof.
  intros Hb Hm. apply turn_without_call.
  - rewrite get_llm_response_run, Hb. reflexivity.
  - apply extract_no_marker. rewrite error_text_marker. exact Hm.
Qed.

Lemma completion_failure_is_the_answer_witness :
  process_conversation_turn
    (constant (CompletionFailed "Connection refused") (text_result "default"))
    "How many databases are available?" (initial_state tt)
  = (Return "Error getting LLM response: Connection refused",
     log_request
       (LLMRequest (request_messages (initial_state tt)
                      "How many databases are available?"))
       (set_world tt (initial_state tt))).
Proof.
  apply (completion_failure_is_the_answer
           (constant (CompletionFailed "Connection refused") (text_result "default"))
           "How many databases are available?" (initial_state tt)
           "Connection refused" tt).
  - reflexivity.
  - vm_compute; reflexivity.
Defined.


(** X10.  [get_llm_response] never raises.  It issues one completion
    request made of the system prompt of the current tools, the transcript
    in order and the user message last, leaves the transcript alone, and
    returns the completion, or [Error getting LLM response: ...] with the
    backend's message when the backend fails. *)
Lemma get_llm_response_never_raises
  {World : Type} (B : backend World) (user_message : string) (st : state World) :
  exists text st',
    get_llm_response B user_message st = (Return text, st')
    /\ requests st'
       = (requests st
            ++ [LLMRequest
                  (system (_create_system_prompt (available_tools st))
                     :: conversation_history st ++ [user user_message])])%list
    /\ conversation_history st' = conversation_history st
    /\ (forall completion w,
          chat_completions_create B (request_messages st user_message) (world st)
          = (Completed completion, w) ->
          text = completion)
    /\ (forall err w,
          chat_completions_create B (request_messages st user_message) (world st)
          = (CompletionFailed err, w) ->
          text = "Error getting LLM response: " ++ err).
Proof.
  rewrite get_llm_response_run.
  destruct (chat_completions_create B _ (world st)) as [[t | err] w];
    eexists; eexists; (split; [reflexivity |]);
    (split; [reflexivity |]); (split; [reflexivity |]);
    split; intros x w' [= <- _] || intros x w' [=]; reflexivity.
Qed.

Lemma get_llm_response_never_raises_witness :
  fst (get_llm_response
         (constant (CompletionFailed "Connection refused") (text_result "default"))
         "Hello" (initial_state tt))
  = Return "Error getting LLM response: Connection refused".
Proof.
  destruct (get_llm_response_never_raises
              (constant (CompletionFailed "Connection refused")
                 (text_result "default"))
              "Hello" (initial_state tt))
    as (text & st' & Hrun & _ & _ & _ & Herr).
  rewrite Hrun. cbn [fst].
  rewrite (Herr "Connection refused" tt eq_refl). reflexivity.
Defined.

(** X11.  A turn only appends to the transcript it was given, also when it
    ends in an error text or raises: what was there stays in place, and what
    is added are tool exchanges (the assistant's tool-call text followed by
    a [Tool result: ...] user message), at most one per tool request and at
    most three.  The tool list is not changed. *)
Lemma turn_appends_only_tool_exchanges
  {World : Type} (B : backend World) (user_message : string) (st : state World) :
  exists r st' new d,
    process_conversation_turn B user_message st = (r, st')
    /\ requests st' = (requests st ++ new)%list
    /\ conversation_history st' = (conversation_history st ++ d)%list
    /\ exchanges d
    /\ List.length d <= 2 * tool_calls new
    /\ List.length d <= 6
    /\ available_tools st' = available_tools st.
Proof.
  destruct (turn_loop_run B 3 user_message st)
    as (r & st' & tail & d & Hrun & [(H0 & _) | R] & _ & H & E & L & T);
    [discriminate |].
  destruct (turn_loop_effect B 3 user_message st)
    as (r' & st'' & new & d' & Hrun' & R' & _ & _ & _ & _ & Lt & _).
  rewrite Hrun in Hrun'. injection Hrun' as <- <-.
  rewrite R in R'. apply app_inv_head in R'. subst new.
  exists r, st', (LLMRequest (request_messages st user_message) :: tail), d.
  change (tool_calls (LLMRequest (request_messages st user_message) :: tail))
    with (tool_calls tail) in *.
  repeat split; auto. lia.
Qed.


(** ** More on the chat loop *)

Lemma paired_app a b : paired a -> paired b -> paired (a ++ b).
Proof.
  induction 1; intros Hb; cbn [app]; [exact Hb | |]; constructor; auto.
Qed.

Lemma exchanges_paired d : exchanges d -> paired d.
Proof. induction 1; constructor; assumption. Qed.

Lemma paired_even l : paired l -> exists k, List.length l = 2 * k.
Proof.
  induction 1 as [| ? ? ? _ [k Hk] | ? ? ? _ [k Hk]];
    [exists 0; reflexivity | |]; exists (S k); cbn [List.length]; lia.
Qed.

Lemma paired_skipn l : paired l -> forall k, paired (skipn (2 * k) l).
Proof.
  induction 1 as [| ? ? ? H IH | ? ? ? H IH]; intros k.
  - rewrite skipn_nil. constructor.
  - destruct k as [| k]; [constructor; exact H |].
    replace (2 * S k) with (S (S (2 * k))) by lia. cbn [skipn]. apply IH.
  - destruct k as [| k]; [constructor; exact H |].
    replace (2 * S k) with (S (S (2 * k))) by lia. cbn [skipn]. apply IH.
Qed.

(** Cutting a paired transcript down to its last twenty entries splits no
    pair. *)
Lemma paired_window l : paired l -> paired (window l).
Proof.
  intros H. rewrite window_skipn. destruct (paired_even l H) as [k Hk].
  replace (List.length l - 20) with (2 * (k - 10)) by lia.
  apply paired_skipn. exact H.
Qed.

Section ChatLoopRuns.

Context {World : Type} (B : backend World).

(** One pass through the body of the chat loop, whatever its outcome. *)
Lemma chat_turn_run user_input (st : state World) :
  exists r st' new,
    chat_turn B user_input st = (r, st')
    /\ requests st' = (requests st ++ new)%list
    /\ llm_calls new <= 3 /\ tool_calls new <= 3
    /\ available_tools st' = available_tools st
    /\ (forall messages, In (LLMRequest messages) new ->
          hd_error messages
          = Some (system (_create_system_prompt (available_tools st))))
    /\ (paired (conversation_history st) -> paired (conversation_history st')).
Proof.
  unfold chat_turn, process_conversation_turn, max_iterations.
  destruct (turn_loop_run B 3 user_input st)
    as (r & st1 & tail & d & Hrun & [(H0 & _) | R] & Hreq & H & E & _ & T);
    [discriminate |].
  destruct (turn_loop_effect B 3 user_input st)
    as (r' & st1' & new & d' & Hrun' & R' & _ & _ & _ & Ll & Lt & _).
  rewrite Hrun in Hrun'. injection Hrun' as <- <-.
  assert (Hnew : new = LLMRequest (request_messages st user_input) :: tail).
  { rewrite R in R'. apply app_inv_head in R'. symmetry. exact R'. }
  assert (Hheads : forall messages, In (LLMRequest messages) new ->
            hd_error messages
            = Some (system (_create_system_prompt (available_tools st)))).
  { intros messages Hin. rewrite Hnew in Hin. destruct Hin as [Hin | Hin].
    - injection Hin as <-. apply request_messages_shape.
    - apply Hreq. exact Hin. }
  assert (Hp1 : paired (conversation_history st) ->
                paired (conversation_history st1)).
  { intros Hp. rewrite H. apply paired_app; [exact Hp |].
    apply exchanges_paired. exact E. }
  unfold bind at 1. rewrite Hrun.
  destruct r as [response | e].
  - unfold bind, history_extend, get_history. cbn [conversation_history].
    set (h := (conversation_history st1 ++ [user user_input; assistant response])%list).
    assert (Hh : paired (conversation_history st) -> paired h).
    { intros Hp. unfold h. apply paired_app; [auto |].
      constructor. constructor. }
    destruct (20 <? Z.of_nat (List.length h))%Z;
      eexists; eexists; exists new; (split; [reflexivity |]); cbn;
      (split; [exact R' |]); (split; [exact Ll |]); (split; [exact Lt |]);
      (split; [exact T |]); (split; [exact Hheads |]).
    + intros Hp. apply (paired_window h). auto.
    + fold h. exact Hh.
  - exists (Raise e), st1, new.
    split; [reflexivity |]. split; [exact R' |]. split; [exact Ll |].
    split; [exact Lt |]. split; [exact T |]. split; [exact Hheads | exact Hp1].
Qed.

Lemma is_blank_not_exit line :
  is_blank line = true -> is_exit_keyword (lower (strip line)) = false.
Proof.
  unfold is_blank. intros H. apply String.eqb_eq in H. rewrite H. reflexivity.
Qed.

(** The loop over the input lines, whatever its outcome. *)
Lemma chat_turns_run lines : forall (st : state World),
  exists r st' new,
    chat_turns B lines st = (r, st')
    /\ requests st' = (requests st ++ new)%list
    /\ llm_calls new <= 3 * List.length (filter not_blank lines)
    /\ tool_calls new <= 3 * List.length (filter not_blank lines)
    /\ available_tools st' = available_tools st
    /\ (forall messages, In (LLMRequest messages) new ->
          hd_error messages
          = Some (system (_create_system_prompt (available_tools st))))
    /\ (paired (conversation_history st) -> paired (conversation_history st')).
Proof.
  induction lines as [| line rest IH]; intros st.
  - exists (Return AwaitingInput), st, []. cbn. rewrite app_nil_r.
    split; [reflexivity |]. split; [reflexivity |].
    split; [lia |]. split; [lia |]. split; [reflexivity |].
    split; [intros messages [] | auto].
  - cbn [chat_turns].
    destruct (is_exit_keyword (lower (strip line))) eqn:Hexit.
    { exists (Return Goodbye), st, []. rewrite app_nil_r.
      split; [reflexivity |]. split; [reflexivity |].
      split; [cbn [llm_calls filter List.length]; lia |].
      split; [cbn [tool_calls filter List.length]; lia |].
      split; [reflexivity |].
      split; [intros messages [] | auto]. }
    destruct (String.eqb (strip line) EmptyString) eqn:Hblank.
    { assert (Hnb : not_blank line = false)
        by (unfold not_blank, is_blank; rewrite Hblank; reflexivity).
      cbn [filter]. rewrite Hnb. apply IH. }
    assert (Hnb : not_blank line = true)
      by (unfold not_blank, is_blank; rewrite Hblank; reflexivity).
    cbn [filter]. rewrite Hnb.
    destruct (chat_turn_run (strip line) st)
      as (r1 & st1 & new1 & Ht & R1 & L1 & T1 & A1 & Hh1 & P1).
    unfold bind at 1. rewrite Ht.
    destruct r1 as [[] | e].
    + destruct (IH st1) as (r2 & st2 & new2 & Hr2 & R2 & L2 & T2 & A2 & Hh2 & P2).
      exists r2, st2, (new1 ++ new2)%list.
      rewrite Hr2, R2, R1, A2, A1, <- app_assoc, llm_calls_app, tool_calls_app.
      split; [reflexivity |]. split; [reflexivity |].
      split; [cbn [List.length]; lia |]. split; [cbn [List.length]; lia |].
      split; [reflexivity |].
      split; [| auto].
      intros messages Hin. apply in_app_or in Hin. destruct Hin as [Hin | Hin].
      * apply Hh1. exact Hin.
      * rewrite <- A1. apply Hh2. exact Hin.
    + exists (Raise e), st1, new1.
      split; [reflexivity |]. split; [exact R1 |].
      split; [cbn [List.length]; lia |]. split; [cbn [List.length]; lia |].
      split; [exact A1 |]. split; [exact Hh1 | exact P1].
Qed.

(** [initialize_session] by the replies of the tool backend. *)
Lemma initialize_session_run (st : state World) :
  initialize_session B st
  = let (started, w1) := session_initialize B (world st) in
    match started with
    | Some err => (Raise (OtherException err), set_world w1 st)
    | None =>
        let (reply, w2) := session_list_tools B w1 in
        set_tools (discovered reply) (set_world w2 st)
    end.
Proof.
  unfold initialize_session, _discover_tools, initialize, list_tools,
    set_tools, try_except, bind.
  destruct (session_initialize B (world st)) as [[err |] w1]; cbn; [reflexivity |].
  destruct (session_list_tools B w1) as [[tools | err] w2]; reflexivity.
Qed.

Lemma chat_loop_skips_after_exit before : forall line after (st : state World),
  is_exit_keyword (lower (strip line)) = true ->
  chat_turns B (before ++ line :: after) st = chat_turns B (before ++ [line]) st.
Proof.
  induction before as [| l rest IH]; intros line after st Hexit.
  - cbn [app chat_turns]. rewrite Hexit. reflexivity.
  - cbn [app chat_turns].
    destruct (is_exit_keyword (lower (strip l))); [reflexivity |].
    destruct (String.eqb (strip l) EmptyString); [apply IH; exact Hexit |].
    unfold bind. destruct (chat_turn B (strip l) st) as [[[] | e] st1];
      [apply IH; exact Hexit | reflexivity].
Qed.

Lemma chat_turns_skip_blank lines : forall (st : state World),
  chat_turns B lines st = chat_turns B (filter not_blank lines) st.
Proof.
  induction lines as [| line rest IH]; intros st; [reflexivity |].
  cbn [filter]. unfold not_blank at 1. destruct (is_blank line) eqn:Hb; cbn [negb].
  - cbn [chat_turns]. rewrite (is_blank_not_exit _ Hb).
    unfold is_blank in Hb. rewrite Hb. apply IH.
  - cbn [chat_turns].
    destruct (is_exit_keyword (lower (strip line))); [reflexivity |].
    unfold is_blank in Hb. rewrite Hb.
    unfold bind. destruct (chat_turn B (strip line) st) as [[[] | e] st1];
      [apply IH | reflexivity].
Qed.

End ChatLoopRuns.

(** X13.  The stored transcript never splits a pair: whatever the backends
    answer and however the loop ends, the transcript of a chat session is a
    sequence of pairs, each a tool exchange or a user input with its
    answer.  Cutting to the last twenty entries keeps this, since entries
    come two at a time. *)
Lemma transcript_splits_no_pair
  {World : Type} (B : backend World) (lines : list string) (w : World) :
  paired (conversation_history (snd (chat_loop B lines (initial_state w)))).
Proof.
  unfold chat_loop. unfold bind at 1.
  destruct (initialize_session B (initial_state w)) as [[[] | e] st0] eqn:Hi.
  - unfold bind at 1. cbn [new_history].
    match goal with
    | |- context [chat_turns B lines ?s] =>
        destruct (chat_turns_run B lines s) as (r & st' & new & Hrun & _ & _ & _ & _ & _ & P)
    end.
    rewrite Hrun. cbn [snd]. apply P. constructor.
  - apply initialize_session_frame in Hi. destruct Hi as [Hh _].
    cbn [snd]. rewrite Hh. constructor.
Qed.

(** X14.  A chat session issues at most three completion requests and three
    tool requests for each input line that is not blank, and none for the
    session start. *)
Lemma chat_loop_request_bound
  {World : Type} (B : backend World) (lines : list string) (st : state World) :
  exists r st' new,
    chat_loop B lines st = (r, st')
    /\ requests st' = (requests st ++ new)%list
    /\ llm_calls new <= 3 * List.length (filter not_blank lines)
    /\ tool_calls new <= 3 * List.length (filter not_blank lines).
Proof.
  unfold chat_loop. unfold bind at 1. rewrite initialize_session_run.
  destruct (session_initialize B (world st)) as [[err |] w1].
  - eexists; eexists; exists []. split; [reflexivity |].
    cbn. rewrite app_nil_r. repeat split; lia.
  - destruct (session_list_tools B w1) as [reply w2]. cbn [set_tools].
    unfold bind at 1. cbn [new_history].
    match goal with
    | |- context [chat_turns B lines ?s] =>
        destruct (chat_turns_run B lines s) as (r & st' & new & Hrun & R & L & T & _)
    end.
    exists r, st', new. rewrite Hrun. cbn in R. auto.
Qed.

(** X15.  Input after an exit keyword is never looked at: a line that is
    [quit], [exit] or [bye] once stripped and lowered makes the rest of the
    input irrelevant to the run. *)
Lemma lines_after_exit_keyword_are_ignored
  {World : Type} (B : backend World) (before after : list string)
  (line : string) (st : state World) :
  is_exit_keyword (lower (strip line)) = true ->
  chat_loop B (before ++ line :: after) st = chat_loop B (before ++ [line]) st.
Proof.
  intros Hexit. unfold chat_loop, bind.
  destruct (initialize_session B st) as [[[] | e] st0]; [| reflexivity].
  cbn [new_history]. apply chat_loop_skips_after_exit. exact Hexit.
Qed.

Lemma lines_after_exit_keyword_are_ignored_witness :
  chat_loop (constant (Completed "ok") (text_result "default"))
    (["How many databases are available?"] ++ "  QUIT " :: ["never read"])
    (initial_state tt)
  = chat_loop (constant (Completed "ok") (text_result "default"))
      (["How many databases are available?"] ++ ["  QUIT "])
      (initial_state tt).
Proof.
  apply (lines_after_exit_keyword_are_ignored
           (constant (Completed "ok") (text_result "default"))
           ["How many databases are available?"] ["never read"] "  QUIT "
           (initial_state tt)).
  vm_compute; reflexivity.
Defined.

(** X16.  Blank input lines change nothing: a run on the given lines is the
    run on the lines that are not blank, with the same result, transcript
    and requests. *)
Lemma blank_lines_change_nothing
  {World : Type} (B : backend World) (lines : list string) (st : state World) :
  chat_loop B lines st = chat_loop B (filter not_blank lines) st.
Proof.
  unfold chat_loop, bind.
  destruct (initialize_session B st) as [[[] | e] st0]; [| reflexivity].
  cbn [new_history]. apply chat_turns_skip_blank.
Qed.

(** X17.  The system prompt of a chat session is fixed at its start: when
    the session starts, the tool list is what the discovery returned, or
    empty when the discovery failed (the failure does not stop the
    session); the list stays that way to the end, and every completion
    request of the session starts with the prompt built from it. *)
Lemma session_prompt_is_fixed_at_discovery
  {World : Type} (B : backend World) (lines : list string) (st : state World)
  (w1 w2 : World) (reply : tools_reply) :
  session_initialize B (world st) = (None, w1) ->
  session_list_tools B w1 = (reply, w2) ->
  exists r st' new,
    chat_loop B lines st = (r, st')
    /\ requests st' = (requests st ++ new)%list
    /\ available_tools st' = discovered reply
    /\ forall messages,
         In (LLMRequest messages) new ->
         hd_error messages
         = Some (system (_create_system_prompt (discovered reply))).
Proof.
  intros Hi Hd.
  unfold chat_loop. unfold bind at 1. rewrite initialize_session_run, Hi, Hd.
  cbn [set_tools]. unfold bind at 1. cbn [new_history].
  match goal with
  | |- context [chat_turns B lines ?s] =>
      destruct (chat_turns_run B lines s) as (r & st' & new & Hrun & R & _ & _ & T & Hh & _)
  end.
  exists r, st', new. rewrite Hrun. cbn in R, T, Hh. auto.
Qed.

Lemma session_prompt_is_fixed_at_discovery_witness :
  exists r st' new,
    chat_loop (failing_discovery "Method not found")
      ["How many databases are available?"] (initial_state tt) = (r, st')
    /\ requests st' = (requests (initial_state tt) ++ new)%list
    /\ available_tools st' = discovered (ToolsFailed "Method not found")
    /\ forall messages,
         In (LLMRequest messages) new ->
         hd_error messages
         = Some (system (_create_system_prompt
                           (discovered (ToolsFailed "Method not found")))).
Proof.
  apply (session_prompt_is_fixed_at_discovery
           (failing_discovery "Method not found")
           ["How many databases are available?"] (initial_state tt) tt tt
           (ToolsFailed "Method not found"));
    reflexivity.
Defined.

(** X18.  A session start that fails is not caught by [chat_loop]: the
    exception leaves it before any line is read, with no request issued and
    the tool list as it was. *)
Lemma failed_start_leaves_chat_loop
  {World : Type} (B : backend World) (lines : list string) (st : state World)
  (err : string) (w : World) :
  session_initialize B (world st) = (Some err, w) ->
  chat_loop B lines st = (Raise (OtherException err), set_world w st).
Proof.
  intros Hi. unfold chat_loop. unfold bind at 1.
  rewrite initialize_session_run, Hi. reflexivity.
Qed.

Lemma failed_start_leaves_chat_loop_witness :
  chat_loop (failing_start "Connection closed")
    ["How many databases are available?"] (initial_state tt)
  = (Raise (OtherException "Connection closed"),
     set_world tt (initial_state tt)).
Proof.
  apply (failed_start_leaves_chat_loop (failing_start "Connection closed")
           ["How many databases are available?"] (initial_state tt)
           "Connection closed" tt).
  reflexivity.
Defined.

(** ** The smoke tests *)

Section SmokeTestFacts.

Context {World : Type} (B : backend World).


End SmokeTestFacts.


(** X20.  [test_full_integration] never raises, the turn's [KeyError]
    included, and issues at most four completion requests and four tool
    requests.  Without an API key (unset or empty) it reports failure
    without contacting a backend. *)
Lemma test_full_integration_never_raises
  {World : Type} (B : backend World) (groq_api_key : option string)
  (st : state World) :
  exists passed st' new,
    test_full_integration B groq_api_key st = (Return passed, st')
    /\ requests st' = (requests st ++ new)%list
    /\ llm_calls new <= 4 /\ tool_calls new <= 4
    /\ (groq_api_key = None \/ groq_api_key = Some EmptyString ->
        passed = false /\ st' = st).
Proof.
  assert (Hnone : exists passed st' new,
             (Return false, st) = (Return passed, st')
             /\ requests st' = (requests st ++ new)%list
             /\ llm_calls new <= 4 /\ tool_calls new <= 4
             /\ (groq_api_key = None \/ groq_api_key = Some EmptyString ->
                 passed = false /\ st' = st)).
  { exists false, st, []. rewrite app_nil_r. cbn.
    split; [reflexivity |]. split; [reflexivity |].
    split; [lia |]. split; [lia |]. auto. }
  destruct groq_api_key as [[| c key] |]; [exact Hnone | | exact Hnone].
  clear Hnone. cbn [test_full_integration].
  unfold try_except. unfold bind at 1. rewrite initialize_session_run.
  destruct (session_initialize B (world st)) as [[err |] w1].
  { exists false, (set_world w1 st), []. cbn. rewrite app_nil_r.
    split; [reflexivity |]. split; [reflexivity |].
    split; [lia |]. split; [lia |]. intros [Hk | Hk]; discriminate. }
  destruct (session_list_tools B w1) as [reply w2]. cbn [set_tools].
  match goal with
  | |- context [bind (execute_mcp_tool B ?n ?a) _ ?s] =>
      destruct (execute_mcp_tool_outcome B n a s) as (r & st1 & Hx & Hr & _);
      set (s0 := s) in *
  end.
  apply after_request_frame in Hr. destruct Hr as (R1 & _).
  unfold bind at 1. rewrite Hx.
  destruct r as [result | e].
  2:{ exists false, st1, [ToolRequest (JText "list_databases") (JDict [])].
      split; [reflexivity |]. split; [exact R1 |]. cbn.
      split; [lia |]. split; [lia |]. intros [Hk | Hk]; discriminate. }
  unfold bind at 1. cbn [new_history].
  match goal with
  | |- context [bind (get_llm_response B ?m) _ ?s] =>
      destruct (get_llm_response_returns B m s) as (text & st2 & Hl & Hr2)
  end.
  apply after_request_frame in Hr2. destruct Hr2 as (R2 & _).
  unfold bind at 1. rewrite Hl.
  unfold bind at 1. cbn [new_history].
  match goal with
  | |- context [bind (process_conversation_turn B ?m) _ ?s] =>
      destruct (turn_loop_effect B 3 m s)
        as (r3 & st3 & new3 & d3 & Hrun & R3 & _ & _ & _ & L3 & T3 & _)
  end.
  unfold process_conversation_turn, max_iterations.
  unfold bind at 1. rewrite Hrun.
  cbn [requests] in R3, R2. rewrite R2, R1 in R3. subst s0. cbn [requests] in R3.
  change (requests (set_world w2 st)) with (requests st) in R3.
  match type of R3 with
  | _ = (((_ ++ ?a) ++ ?b) ++ _)%list =>
      assert (R : requests st3 = (requests st ++ (a ++ b ++ new3))%list)
        by (rewrite R3, <- !app_assoc; reflexivity)
  end.
  destruct r3 as [response | e].
  - eexists true, st3, _. split; [reflexivity |]. split; [exact R |].
    rewrite !llm_calls_app, !tool_calls_app. cbn [llm_calls tool_calls filter
      is_llm_request is_tool_request List.length].
    split; [lia |]. split; [lia |]. intros [Hk | Hk]; discriminate.
  - eexists false, st3, _. split; [reflexivity |]. split; [exact R |].
    rewrite !llm_calls_app, !tool_calls_app. cbn [llm_calls tool_calls filter
      is_llm_request is_tool_request List.length].
    split; [lia |]. split; [lia |]. intros [Hk | Hk]; discriminate.
Qed.

Lemma test_full_integration_never_raises_witness :
  test_full_integration (constant (Completed "ok") (text_result "default"))
    None (initial_state tt)
  = (Return false, initial_state tt).
Proof.
  destruct (test_full_integration_never_raises
              (constant (Completed "ok") (text_result "default")) None
              (initial_state tt))
    as (passed & st' & new & Hrun & _ & _ & _ & Hkey).
  destruct (Hkey (or_introl eq_refl)) as [-> ->]. exact Hrun.
Defined.

(** ** Occurrences in texts *)

Lemma startswith_app_l p : forall a b,
  startswith a p = true -> startswith (a ++ b) p = true.
Proof.
  induction p as [| c p IH]; intros a b H; [reflexivity |].
  destruct a as [| c' a]; [discriminate |].
  cbn [append startswith] in *. apply andb_true_iff in H. destruct H as [Hc Hp].
  rewrite Hc. cbn [andb]. apply IH. exact Hp.
Qed.

Lemma startswith_self p b : startswith (p ++ b) p = true.
Proof.
  induction p as [| c p IH]; [reflexivity |].
  cbn [append startswith]. rewrite Ascii.eqb_refl. exact IH.
Qed.

Lemma contains_unfold sub s :
  contains sub s
  = startswith s sub
    || match s with
       | EmptyString => false
       | String _ r => contains sub r
       end.
Proof. destruct s; reflexivity. Qed.

Lemma contains_app_r sub a : forall b,
  contains sub b = true -> contains sub (a ++ b) = true.
Proof.
  induction a as [| c a IH]; intros b H; [exact H |].
  cbn [append]. rewrite contains_unfold. rewrite (IH b H). apply orb_true_r.
Qed.

Lemma contains_app_l sub a : forall b,
  contains sub a = true -> contains sub (a ++ b) = true.
Proof.
  induction a as [| c a IH]; intros b H; rewrite contains_unfold in H;
    apply orb_true_iff in H; destruct H as [H | H]; try discriminate.
  - rewrite contains_unfold, (startswith_app_l _ _ b H). reflexivity.
  - rewrite contains_unfold, (startswith_app_l _ _ b H). reflexivity.
  - cbn [append]. rewrite contains_unfold, (IH b H). apply orb_true_r.
Qed.

Lemma contains_self sub b : contains sub (sub ++ b) = true.
Proof. rewrite contains_unfold, startswith_self. reflexivity. Qed.

Lemma contains_refl x : contains x x = true.
Proof.
  rewrite contains_unfold.
  assert (H : startswith x x = true)
    by (induction x as [| c x IH]; [reflexivity |];
        cbn [startswith]; rewrite Ascii.eqb_refl; exact IH).
  rewrite H. reflexivity.
Qed.

Lemma join_contains sep x parts :
  In x parts -> contains x (join sep parts) = true.
Proof.
  induction parts as [| p rest IH]; intros Hin; [destruct Hin |].
  destruct rest as [| q rest].
  - destruct Hin as [-> | []]. cbn [join]. apply contains_refl.
  - change (join sep (p :: q :: rest)) with (p ++ sep ++ join sep (q :: rest)).
    destruct Hin as [-> | Hin]; [apply contains_self |].
    apply contains_app_r, contains_app_r, IH. exact Hin.
Qed.

#[local] Transparent _create_system_prompt.

(** X21.  The system prompt reflects the tool list it is built from: for
    every tool of the list the prompt holds the line made of a dash, the
    tool's name, a colon and its description. *)
Lemma prompt_lists_every_tool (tools : list tool) (t : tool) :
  In t tools ->
  contains ("- " ++ name t ++ ": " ++ description t)
    (_create_system_prompt tools) = true.
Proof.
  intros Hin. unfold _create_system_prompt. cbv zeta.
  apply contains_app_r, contains_app_r, contains_app_r, contains_app_l.
  apply join_contains. apply (in_map tool_line) in Hin. exact Hin.
Qed.

#[local] Opaque _create_system_prompt.

Lemma prompt_lists_every_tool_witness :
  contains "- run_select_query: Run a query"
    (_create_system_prompt
       [{| name := "list_databases"; description := "List databases";
           input_schema := JDict [] |};
        {| name := "run_select_query"; description := "Run a query";
           input_schema := JDict [] |}]) = true.
Proof.
  apply (prompt_lists_every_tool
           [{| name := "list_databases"; description := "List databases";
               input_schema := JDict [] |};
            {| name := "run_select_query"; description := "Run a query";
               input_schema := JDict [] |}]
           {| name := "run_select_query"; description := "Run a query";
              input_schema := JDict [] |}).
  right. left. reflexivity.
Defined.

(** The marker does not overlap itself: an occurrence that starts in a text
    put before an occurrence lies in that text altogether. *)
Lemma marker_no_overlap q rest :
  q <> EmptyString ->
  startswith rest MARKER = true ->
  startswith (q ++ rest) MARKER = true ->
  startswith q MARKER = true.
Proof.
  unfold MARKER. intros Hne Hr H.
  destruct rest as [| t rest]; [discriminate |].
  cbn [startswith] in Hr. apply andb_true_iff in Hr. destruct Hr as [Ht _].
  apply Ascii.eqb_eq in Ht. subst t.
  destruct q as [| c0 q]; [congruence |].
  cbn [append startswith] in H. apply andb_true_iff in H. destruct H as [Hc H].
  apply Ascii.eqb_eq in Hc. subst c0.
  do 9 (destruct q as [| ?c q];
        [ cbn [append startswith] in H; discriminate
        | cbn [append startswith] in H; apply andb_true_iff in H;
          destruct H as [Hc H]; apply Ascii.eqb_eq in Hc; subst ]).
  reflexivity.
Qed.

Lemma find_from_unfold s sub i :
  find_from s sub i
  = if startswith s sub then i
    else match s with
         | EmptyString => (-1)%Z
         | String _ r => find_from r sub (i + 1)%Z
         end.
Proof. destruct s; reflexivity. Qed.

(** The first marker of a text is the first one after a text that holds
    none. *)
Lemma find_marker_after pre : forall rest i,
  contains MARKER pre = false ->
  startswith rest MARKER = true ->
  find_from (pre ++ rest) MARKER i = (i + Z.of_nat (String.length pre))%Z.
Proof.
  induction pre as [| c p IH]; intros rest i Hc Hr.
  - cbn [append String.length]. rewrite find_from_unfold, Hr. lia.
  - rewrite contains_unfold in Hc. apply orb_false_iff in Hc.
    destruct Hc as [Hs Hp].
    rewrite find_from_unfold.
    destruct (startswith (String c p ++ rest) MARKER) eqn:E.
    + apply marker_no_overlap in E; [congruence | discriminate | exact Hr].
    + cbn [append]. rewrite (IH rest (i + 1)%Z Hp Hr). cbn [String.length]. lia.
Qed.

Lemma drop_app pre : forall n rest,
  drop (String.length pre + n) (pre ++ rest) = drop n rest.
Proof. induction pre as [| c p IH]; intros n rest; [reflexivity | apply IH]. Qed.

Lemma after_marker_skips_text pre rest :
  contains MARKER pre = false ->
  startswith rest MARKER = true ->
  after_marker (pre ++ rest) = after_marker rest.
Proof.
  intros Hc Hr. unfold after_marker, find.
  rewrite (find_marker_after pre rest 0 Hc Hr).
  pose proof (find_marker_after EmptyString rest 0 eq_refl Hr) as H0.
  cbn [append] in H0. rewrite H0.
  pose proof (startswith_drop rest MARKER Hr) as Hlen.
  unfold slice_from, len. f_equal.
  replace (clamp (String.length (pre ++ rest))
             (0 + Z.of_nat (String.length pre) + Z.of_nat (String.length MARKER)))
    with (String.length pre + String.length MARKER).
  2:{ unfold clamp. rewrite append_length.
      replace (_ <? 0)%Z with false by (symmetry; apply Z.ltb_ge; lia). lia. }
  replace (clamp (String.length rest)
             (0 + Z.of_nat (String.length EmptyString)
              + Z.of_nat (String.length MARKER)))
    with (String.length MARKER).
  2:{ unfold clamp.
      replace (_ <? 0)%Z with false by (symmetry; apply Z.ltb_ge; lia).
      cbn [String.length] in *. lia. }
  apply drop_app.
Qed.

(** X22.  Text in front of the call does not matter: when a text that holds
    no marker is put before a text that starts with the marker, the
    extractor submits the same slice and returns the same result as on the
    second text alone. *)
Lemma text_before_marker_is_ignored (pre rest : string) :
  contains MARKER pre = false ->
  startswith rest MARKER = true ->
  submitted_json (pre ++ rest) = submitted_json rest
  /\ _extract_tool_call (pre ++ rest) = _extract_tool_call rest.
Proof.
  intros Hc Hr.
  assert (Hm : contains MARKER rest = true)
    by (rewrite contains_unfold, Hr; reflexivity).
  assert (Hs : submitted_json (pre ++ rest) = submitted_json rest).
  { unfold submitted_json.
    rewrite (contains_app_r MARKER pre rest Hm), Hm.
    rewrite (after_marker_skips_text pre rest Hc Hr). reflexivity. }
  split; [exact Hs |].
  rewrite !extract_tool_call_by_slice, Hs. reflexivity.
Qed.

Lemma text_before_marker_is_ignored_witness :
  submitted_json ("Let me look that up. " ++ list_databases_call)
  = submitted_json list_databases_call
  /\ _extract_tool_call ("Let me look that up. " ++ list_databases_call)
     = _extract_tool_call list_databases_call.
Proof.
  apply (text_before_marker_is_ignored "Let me look that up. " list_databases_call);
    vm_compute; reflexivity.
Defined.

Lemma window_keeps_last_pair (l : list message) a b :
  exists earlier, window (l ++ [a; b]) = (earlier ++ [a; b])%list.
Proof.
  exists (skipn (List.length (l ++ [a; b]) - 20) l).
  rewrite window_skipn, skipn_app, length_app. cbn [List.length].
  replace (List.length l + 2 - 20 - List.length l) with 0 by lia.
  reflexivity.
Qed.

(** X23.  After a completed turn the transcript ends with the user's input
    followed by the answer the turn returned, whatever that answer is (a
    completion, an error text or the exhaustion message) and whether or not
    the transcript was cut. *)
Lemma completed_turn_is_stored_last
  {World : Type} (B : backend World) (user_input : string)
  (st st' : state World) :
  chat_turn B user_input st = (Return tt, st') ->
  exists response earlier,
    fst (process_conversation_turn B user_input st) = Return response
    /\ conversation_history st'
       = (earlier ++ [user user_input; assistant response])%list.
Proof.
  unfold chat_turn. unfold bind at 1.
  destruct (process_conversation_turn B user_input st) as [[response | e] st1];
    [| discriminate].
  unfold bind, history_extend, get_history. cbn [conversation_history fst].
  intros H. exists response.
  destruct (window_keeps_last_pair (conversation_history st1)
              (user user_input) (assistant response)) as [earlier He].
  destruct (20 <? Z.of_nat _)%Z.
  - exists earlier. apply (f_equal snd) in H. cbn in H. subst st'.
    split; [reflexivity |]. cbn. exact He.
  - exists (conversation_history st1). apply (f_equal snd) in H. cbn in H.
    subst st'. split; reflexivity.
Qed.

Lemma completed_turn_is_stored_last_witness :
  exists response earlier,
    fst (process_conversation_turn
           (constant (Completed list_databases_call) (error_result "Unknown database"))
           "How many databases are available?" (initial_state tt))
    = Return response
    /\ conversation_history
         (snd (chat_turn
                 (constant (Completed list_databases_call)
                    (error_result "Unknown database"))
                 "How many databases are available?" (initial_state tt)))
       = (earlier ++ [user "How many databases are available?";
                      assistant response])%list.
Proof.
  apply (completed_turn_is_stored_last
           (constant (Completed list_databases_call) (error_result "Unknown database"))
           "How many databases are available?" (initial_state tt)).
  vm_compute; reflexivity.
Defined.
